(** * DealWise price-comparison API: a shallow embedding and its properties

    The repository holds two variants of the same HTTP service:
    - [src/main.py]            (synchronous, "DealWiseDe API"), module [Main];
    - [src/backend/main.py]    (asynchronous, "DealWise Backend") together
      with its data-access layer [src/backend/database.py], module [Backend].

    Handlers are embedded as computations of a small state-and-exception
    monad over a [World] that holds the process environment, the wall clock,
    the MongoDB contents and the driver's fault oracle. *)

From Stdlib Require Import ZArith QArith Qround String Ascii List Bool Lia.
From Stdlib Require Import Sorting.Sorted Sorting.Permutation.
From stdpp Require Import base option list gmap strings pretty.

Import ListNotations.
Local Open Scope string_scope.
Local Open Scope list_scope.
Local Open Scope Z_scope.

(** ** Python built-ins used by the handlers *)

Module Py.

(** [str(i)] for an [int]. *)
Definition str_int (i : Z) : string := pretty i.

(** [range(lo, hi)]: the integers [lo, lo+1, ..., hi-1]; empty when
    [hi <= lo]. *)
Definition range (lo hi : Z) : list Z :=
  map (fun k : nat => lo + Z.of_nat k) (seq 0 (Z.to_nat (hi - lo))).

(** ASCII classification; strings are byte strings in this development and
    the case and whitespace built-ins act on the ASCII range. *)
Definition is_upper (c : ascii) : bool :=
  let n := nat_of_ascii c in (65 <=? n)%nat && (n <=? 90)%nat.

Definition is_lower (c : ascii) : bool :=
  let n := nat_of_ascii c in (97 <=? n)%nat && (n <=? 122)%nat.

Definition is_cased (c : ascii) : bool := is_upper c || is_lower c.

Definition to_lower (c : ascii) : ascii :=
  if is_upper c then ascii_of_nat (nat_of_ascii c + 32) else c.

Definition to_upper (c : ascii) : ascii :=
  if is_lower c then ascii_of_nat (nat_of_ascii c - 32) else c.

(** [str.isspace] on one character: TAB..CR, FS..US and SPACE. *)
Definition is_space (c : ascii) : bool :=
  let n := nat_of_ascii c in
  ((9 <=? n)%nat && (n <=? 13)%nat) || ((28 <=? n)%nat && (n <=? 32)%nat).

(** [s.lower()] *)
Fixpoint lower (s : string) : string :=
  match s with
  | EmptyString => EmptyString
  | String c s' => String (to_lower c) (lower s')
  end.

(** [s.title()]: a cased character is upper-cased when it follows an uncased
    one (or starts the string) and lower-cased otherwise. *)
Fixpoint title_go (prev_cased : bool) (s : string) : string :=
  match s with
  | EmptyString => EmptyString
  | String c s' =>
      String (if prev_cased then to_lower c else to_upper c)
             (title_go (is_cased c) s')
  end.

Definition title (s : string) : string := title_go false s.

(** [s.lstrip()], [s.rstrip()], [s.strip()] *)
Fixpoint lstrip (s : string) : string :=
  match s with
  | EmptyString => EmptyString
  | String c s' => if is_space c then lstrip s' else s
  end.

Fixpoint rstrip (s : string) : string :=
  match s with
  | EmptyString => EmptyString
  | String c s' =>
      match rstrip s' with
      | EmptyString => if is_space c then EmptyString else String c EmptyString
      | r => String c r
      end
  end.

Definition strip (s : string) : string := rstrip (lstrip s).

(** [s.split(sep)] for a one-character separator: always at least one
    field. *)
Fixpoint split (sep : ascii) (s : string) : list string :=
  match s with
  | EmptyString => [EmptyString]
  | String c s' =>
      if Ascii.eqb c sep then EmptyString :: split sep s'
      else match split sep s' with
           | [] => [String c EmptyString]
           | f :: fs => String c f :: fs
           end
  end.

(** Truth value of a string: non-empty. *)
Definition truthy (s : string) : bool :=
  match s with EmptyString => false | _ => true end.

(** [round(x, 2)] on an exact rational: nearest multiple of 1/100, ties to
    the even multiple. *)
Definition round_half_even (x : Q) : Z :=
  let f := Qfloor x in
  let r := (x - inject_Z f)%Q in
  match Qcompare r (1 # 2) with
  | Lt => f
  | Gt => f + 1
  | Eq => if Z.even f then f else f + 1
  end.

Definition round2 (x : Q) : Q :=
  (inject_Z (round_half_even (x * 100)) / 100)%Q.

End Py.

(** ** Values, documents and identifiers *)

(** A [datetime]: microseconds since the Unix epoch (UTC), and whether the
    object carries the UTC time zone ([datetime.now(timezone.utc)]) or is
    naive ([datetime.utcnow()]). *)
Record datetime := mk_datetime { micros : Z; aware : bool }.

(** A BSON [ObjectId] is a 96-bit number. *)
Definition ObjectId := N.

(** Python values that occur in the documents of this service.  A [float]
    is represented by the exact rational its decimal notation denotes:
    arithmetic on prices is exact, binary rounding is outside the model. *)
Inductive value :=
  | VNone
  | VStr (s : string)
  | VInt (i : Z)
  | VFloat (x : Q)
  | VDate (t : datetime)
  | VOid (o : ObjectId)
  | VStrs (l : list string).

(** A [dict] with string keys: a MongoDB document. *)
Abbreviation document := (gmap string value).

Module Datetime.

Definition day_us : Z := 86400 * 1000000.

(** Proleptic Gregorian date [(year, month, day)] of a day number counted
    from 1970-01-01. *)
Definition civil_from_days (z : Z) : Z * Z * Z :=
  let z := z + 719468 in
  let era := z / 146097 in
  let doe := z - era * 146097 in
  let yoe := (doe - doe / 1460 + doe / 36524 - doe / 146096) / 365 in
  let y := yoe + era * 400 in
  let doy := doe - (365 * yoe + yoe / 4 - yoe / 100) in
  let mp := (5 * doy + 2) / 153 in
  let d := doy - (153 * mp + 2) / 5 + 1 in
  let m := if (mp <? 10)%Z then mp + 3 else mp - 9 in
  (if (m <=? 2)%Z then y + 1 else y, m, d).

(** Decimal rendering of a non-negative number, left-padded with zeros to
    [width] digits. *)
Fixpoint zeros (n : nat) : string :=
  match n with O => "" | S n' => String "0" (zeros n') end.

Definition pad (width : nat) (n : Z) : string :=
  let s := Py.str_int n in zeros (width - String.length s) +:+ s.

(** [t.isoformat(sep)] *)
Definition format (sep : string) (t : datetime) : string :=
  let days := micros t / day_us in
  let rest := micros t mod day_us in
  let '(y, m, d) := civil_from_days days in
  let secs := rest / 1000000 in
  let us := rest mod 1000000 in
  pad 4 y +:+ "-" +:+ pad 2 m +:+ "-" +:+ pad 2 d +:+ sep
    +:+ pad 2 (secs / 3600) +:+ ":" +:+ pad 2 (secs / 60 mod 60) +:+ ":"
    +:+ pad 2 (secs mod 60)
    +:+ (if (us =? 0)%Z then "" else "." +:+ pad 6 us)
    +:+ (if aware t then "+00:00" else "").

Definition isoformat (t : datetime) : string := format "T" t.

(** [str(t)] *)
Definition str (t : datetime) : string := format " " t.

End Datetime.

Module Oid.

Definition hex_char (d : N) : ascii :=
  ascii_of_N (if (d <? 10)%N then 48 + d else 87 + d)%N.

Definition hex_value (c : ascii) : option N :=
  let n := N_of_ascii c in
  if ((48 <=? n) && (n <=? 57))%N then Some (n - 48)%N
  else if ((97 <=? n) && (n <=? 102))%N then Some (n - 87)%N
  else if ((65 <=? n) && (n <=? 70))%N then Some (n - 55)%N
  else None.

Fixpoint hex_digits (len : nat) (o : N) (acc : string) : string :=
  match len with
  | O => acc
  | S len' => hex_digits len' (o / 16)%N (String (hex_char (o mod 16)%N) acc)
  end.

(** [str(oid)]: 24 lower-case hexadecimal digits. *)
Definition str (o : ObjectId) : string := hex_digits 24 o "".

Fixpoint parse_hex (acc : N) (s : string) : option N :=
  match s with
  | EmptyString => Some acc
  | String c s' =>
      match hex_value c with
      | Some d => parse_hex (16 * acc + d)%N s'
      | None => None
      end
  end.

(** [ObjectId(s)]: [None] stands for [bson.errors.InvalidId], raised unless
    [s] is 24 hexadecimal digits. *)
Definition parse (s : string) : option ObjectId :=
  if (String.length s =? 24)%nat then parse_hex 0%N s else None.

End Oid.

(** Exceptions that reach the handlers. *)
Inductive exn :=
  | ConnectionFailure                       (* pymongo: server unreachable *)
  | DuplicateKeyError                       (* pymongo: [_id] already stored *)
  | InvalidId (oid : string)                (* bson: malformed ObjectId *)
  | KeyError (key : string)
  | HTTPException (status_code : Z) (detail : string)
  | OtherError (msg : string).

(** Renderings fixed by the Python runtime that no property below depends
    on: [repr] of a float, [repr] of a list of strings and the message of
    an exception. *)
Class PyRuntime := {
  float_repr : Q -> string;
  list_repr : list string -> string;
  exn_str : exn -> string
}.

(** [str(v)] *)
Definition py_str `{PyRuntime} (v : value) : string :=
  match v with
  | VNone => "None"
  | VStr s => s
  | VInt i => Py.str_int i
  | VFloat x => float_repr x
  | VDate t => Datetime.str t
  | VOid o => Oid.str o
  | VStrs l => list_repr l
  end.

(** [hasattr(v, "isoformat")] *)
Definition has_isoformat (v : value) : bool :=
  match v with VDate _ => true | _ => false end.

(** ** The world and the handler monad *)

(** - [environ]: the process environment ([os.getenv]);
    - [clock]: the values the next reads of the wall clock return, in
      microseconds since the epoch;
    - [faults]: for each coming round trip to the database server, whether
      it fails;
    - [db_handle]: whether the module-level [db] of [src/main.py] is a
      database ([true]) or [None];
    - [colls]: the collections, each a list of documents in insertion order;
    - [next_oid]: the next [ObjectId] the driver generates;
    - [journal]: ghost state, the calls made to [create_document] by
      [src/main.py], most recent first. *)
Record World := mk_world {
  environ : gmap string string;
  clock : list Z;
  faults : list bool;
  db_handle : bool;
  colls : gmap string (list document);
  next_oid : ObjectId;
  journal : list (string * document)
}.

Definition set_clock (c : list Z) (w : World) : World :=
  mk_world (environ w) c (faults w) (db_handle w) (colls w) (next_oid w) (journal w).

Definition set_faults (f : list bool) (w : World) : World :=
  mk_world (environ w) (clock w) f (db_handle w) (colls w) (next_oid w) (journal w).

Definition set_colls (c : gmap string (list document)) (w : World) : World :=
  mk_world (environ w) (clock w) (faults w) (db_handle w) c (next_oid w) (journal w).

Definition set_next_oid (o : ObjectId) (w : World) : World :=
  mk_world (environ w) (clock w) (faults w) (db_handle w) (colls w) o (journal w).

Definition set_journal (j : list (string * document)) (w : World) : World :=
  mk_world (environ w) (clock w) (faults w) (db_handle w) (colls w) (next_oid w) j.

Inductive result (A : Type) :=
  | Ok (a : A)
  | Raise (e : exn).
Arguments Ok {A} a.
Arguments Raise {A} e.

Definition M (A : Type) : Type := World -> result A * World.

Definition ret {A} (a : A) : M A := fun w => (Ok a, w).

Definition raise {A} (e : exn) : M A := fun w => (Raise e, w).

Definition bind {A B} (m : M A) (k : A -> M B) : M B :=
  fun w => match m w with
           | (Ok a, w') => k a w'
           | (Raise e, w') => (Raise e, w')
           end.

(** [try: m  except Exception as e: h e] *)
Definition try_except {A} (m : M A) (h : exn -> M A) : M A :=
  fun w => match m w with
           | (Ok a, w') => (Ok a, w')
           | (Raise e, w') => h e w'
           end.

#[global] Instance M_ret : MRet M := @ret.
#[global] Instance M_bind : MBind M := fun A B k m => bind m k.

(** [for x in l: body x] *)
Fixpoint for_each {A} (l : list A) (body : A -> M unit) : M unit :=
  match l with
  | [] => ret tt
  | x :: l' => bind (body x) (fun _ => for_each l' body)
  end.

(** [os.getenv(name)] *)
Definition getenv (name : string) : M (option string) :=
  fun w => (Ok (environ w !! name), w).

(** One read of the wall clock. *)
Definition read_clock : M Z :=
  fun w => match clock w with
           | [] => (Ok 0, w)
           | t :: ts => (Ok t, set_clock ts w)
           end.

(** [datetime.utcnow()] *)
Definition utcnow : M datetime :=
  bind read_clock (fun t => ret (mk_datetime t false)).

(** [datetime.now(timezone.utc)] *)
Definition now_utc : M datetime :=
  bind read_clock (fun t => ret (mk_datetime t true)).

(** [d[k]] on a dict. *)
Definition getitem (d : document) (k : string) : M value :=
  match d !! k with
  | Some v => ret v
  | None => raise (KeyError k)
  end.

(** The status line a handler's outcome is answered with: 200 for a
    returned body, the status of an [HTTPException], 500 for any other
    exception. *)
Definition http_status {A} (r : result A) : Z :=
  match r with
  | Ok _ => 200
  | Raise (HTTPException st _) => st
  | Raise _ => 500
  end.

(** ** The document store (pymongo / motor) *)

Module Mongo.

(** The order of BSON values of different kinds: arrays that reach a
    comparison are empty (see [desc_norm]) and sort below null. *)
Definition rank (v : value) : Z :=
  match v with
  | VStrs _ => 0
  | VNone => 1
  | VInt _ | VFloat _ => 2
  | VStr _ => 3
  | VOid _ => 7
  | VDate _ => 9
  end.

Definition number (v : value) : Q :=
  match v with
  | VInt i => inject_Z i
  | VFloat x => x
  | _ => 0%Q
  end.

Definition compare (a b : value) : comparison :=
  match Z.compare (rank a) (rank b) with
  | Eq =>
      match a, b with
      | VStr s, VStr t => String.compare s t
      | VOid o, VOid p => N.compare o p
      | VDate t, VDate u => Z.compare (micros t) (micros u)
      | (VInt _ | VFloat _), (VInt _ | VFloat _) => Qcompare (number a) (number b)
      | _, _ => Eq
      end
  | c => c
  end.

Definition str_max (s t : string) : string :=
  match String.compare s t with Lt => t | _ => s end.

(** The key a descending sort uses for a stored value: an array sorts by
    its greatest element. *)
Definition desc_norm (v : value) : value :=
  match v with
  | VStrs (s :: l) => VStr (fold_right str_max s l)
  | _ => v
  end.

(** A missing field sorts as null. *)
Definition sort_key (key : string) (d : document) : value :=
  match d !! key with
  | Some v => desc_norm v
  | None => VNone
  end.

(** [a] may precede [b] in a descending sort. *)
Definition geb (a b : value) : bool :=
  match compare a b with Lt => false | _ => true end.

Fixpoint insert_desc (key : string) (d : document) (l : list document)
  : list document :=
  match l with
  | [] => [d]
  | x :: l' =>
      if geb (sort_key key d) (sort_key key x) then d :: l
      else x :: insert_desc key d l'
  end.

(** [cursor.sort(key, -1)] *)
Definition sort_desc (key : string) (l : list document) : list document :=
  fold_right (insert_desc key) [] l.

(** Equality of a stored value with a query value. *)
Definition value_eqb (a b : value) : bool :=
  match a, b with
  | VStrs l, VStrs m => bool_decide (l = m)
  | VStrs _, _ | _, VStrs _ => false
  | _, _ => match compare a b with Eq => true | _ => false end
  end.

(** [{key: q}] against a document: the field equals [q], or is an array
    holding [q]; a missing field matches null only. *)
Definition field_matches (stored : option value) (q : value) : bool :=
  match stored with
  | None => match q with VNone => true | _ => false end
  | Some v =>
      value_eqb v q
      || match v, q with
         | VStrs l, VStr s => existsb (String.eqb s) l
         | _, _ => false
         end
  end.

Definition matches (flt : document) (d : document) : bool :=
  forallb (fun kq : string * value => field_matches (d !! fst kq) (snd kq))
          (map_to_list flt).

(** [collection.find(flt)]: the matching documents, in insertion order. *)
Definition find (flt : document) (c : list document) : list document :=
  List.filter (matches flt) c.

(** [cursor.limit(n)]: [0] lifts the limit, a negative [n] stands for
    [-n]. *)
Definition limit (n : Z) (l : list document) : list document :=
  if (n =? 0)%Z then l else firstn (Z.to_nat (Z.abs n)) l.

(** Removal of the first document that matches. *)
Fixpoint remove_first (flt : document) (c : list document)
  : option (list document) :=
  match c with
  | [] => None
  | d :: c' =>
      if matches flt d then Some c'
      else option_map (cons d) (remove_first flt c')
  end.

Definition coll (name : string) (w : World) : list document :=
  default [] (colls w !! name).

(** One round trip to the server: fails when the fault oracle says so. *)
Definition round_trip : M unit :=
  fun w => match faults w with
           | true :: fs => (Raise ConnectionFailure, set_faults fs w)
           | false :: fs => (Ok tt, set_faults fs w)
           | [] => (Ok tt, w)
           end.

(** Iterating a cursor over [docs]: one round trip. *)
Definition fetch (docs : World -> list document) : M (list document) :=
  bind round_trip (fun _ => fun w => (Ok (docs w), w)).

(** [db[name].insert_one(doc)]: a document without [_id] receives a fresh
    [ObjectId]; a document whose [_id] is already stored is refused.
    Returns [inserted_id]. *)
Definition insert_one (name : string) (doc : document) : M value :=
  bind round_trip (fun _ => fun w =>
    match doc !! "_id" with
    | None =>
        let id := VOid (next_oid w) in
        (Ok id,
         set_next_oid (N.succ (next_oid w))
           (set_colls (<[name := (coll name w ++ [<["_id" := id]> doc])%list]> (colls w)) w))
    | Some id =>
        if existsb (matches {["_id" := id]}) (coll name w)
        then (Raise DuplicateKeyError, w)
        else (Ok id, set_colls (<[name := (coll name w ++ [doc])%list]> (colls w)) w)
    end).

(** [db[name].delete_one(flt).deleted_count] *)
Definition delete_one (name : string) (flt : document) : M Z :=
  bind round_trip (fun _ => fun w =>
    match remove_first flt (coll name w) with
    | Some c' => (Ok 1, set_colls (<[name := c']> (colls w)) w)
    | None => (Ok 0, w)
    end).

End Mongo.

(** [all(...)] / [bool(... and ...)] over the results of [os.getenv]: a
    variable counts when it is set to a non-empty string. *)
Definition env_truthy (o : option string) : bool :=
  match o with
  | Some s => Py.truthy s
  | None => false
  end.

(** [x in l] for a list of strings. *)
Definition str_in (x : string) (l : list string) : bool :=
  existsb (String.eqb x) l.

(** [[f(x) for x in l]] where [f] may raise. *)
Fixpoint map_m {A B} (f : A -> M B) (l : list A) : M (list B) :=
  match l with
  | [] => ret []
  | x :: l' => bind (f x) (fun y => bind (map_m f l') (fun ys => ret (y :: ys)))
  end.

(** The body of [POST /favorites], shared by both services. *)
Record FavoriteIn := mk_favorite {
  fav_user_id : string;
  fav_sku : string;
  fav_title : string;
  fav_image_url : option string;
  fav_url : option string;
  fav_merchant : string;
  fav_price : Q;
  fav_currency : string
}.

Definition opt_str (o : option string) : value :=
  match o with Some s => VStr s | None => VNone end.

(** [payload.model_dump()] *)
Definition model_dump (f : FavoriteIn) : document :=
  {[ "user_id" := VStr (fav_user_id f);
     "sku" := VStr (fav_sku f);
     "title" := VStr (fav_title f);
     "image_url" := opt_str (fav_image_url f);
     "url" := opt_str (fav_url f);
     "merchant" := VStr (fav_merchant f);
     "price" := VFloat (fav_price f);
     "currency" := VStr (fav_currency f) ]}.

(** ** [src/backend]: the asynchronous service *)

Module Backend.
Section Service.
Context `{PyRuntime}.

(** The environment as it was when the module was imported: the
    credential flags are module-level constants. *)
Variable startup_env : gmap string string.

(** *** [src/backend/database.py] *)

Definition create_document (collection : string) (data : document) : M string :=
  now ← utcnow;
  let doc := <["created_at" := VDate now]> data in
  inserted_id ← Mongo.insert_one collection doc;
  ret (py_str inserted_id).

(** [d["_id"] = str(d["_id"])] *)
Definition stringify_id (d : document) : M document :=
  id ← getitem d "_id";
  ret (<["_id" := VStr (py_str id)]> d).

Definition get_documents (collection : string) (filter_dict : option document)
    (limit : Z) : M (list document) :=
  let filter_dict := default ∅ filter_dict in
  docs ← Mongo.fetch (fun w =>
            Mongo.limit limit (Mongo.find filter_dict (Mongo.coll collection w)));
  map_m stringify_id docs.

(** *** [src/backend/main.py] *)

Definition AMAZON_KEYS_PRESENT : bool :=
  forallb env_truthy
    [startup_env !! "AMAZON_ACCESS_KEY";
     startup_env !! "AMAZON_SECRET_KEY";
     startup_env !! "AMAZON_PARTNER_TAG"].

Definition FLIPKART_KEYS_PRESENT : bool :=
  forallb env_truthy
    [startup_env !! "FLIPKART_AFFILIATE_ID";
     startup_env !! "FLIPKART_AFFILIATE_TOKEN"].

Definition amazon_item (query : string) (i : Z) : document :=
  {[ "sku" := VStr ("AMZ-" +:+ Py.str_int i);
     "title" := VStr ("Amazon mock item " +:+ Py.str_int i +:+ " for " +:+ query);
     "image_url" := VStr "https://via.placeholder.com/200x200.png?text=Amazon";
     "url" := VStr "https://www.amazon.in/";
     "merchant" := VStr "amazon";
     "price" := VInt (999 + i * 10);
     "currency" := VStr "INR" ]}.

Definition fetch_amazon (query : string) (limit : Z) : list document :=
  if negb AMAZON_KEYS_PRESENT
  then map (amazon_item query) (Py.range 1 (limit + 1))
  else [].

Definition flipkart_item (query : string) (i : Z) : document :=
  {[ "sku" := VStr ("FK-" +:+ Py.str_int i);
     "title" := VStr ("Flipkart mock item " +:+ Py.str_int i +:+ " for " +:+ query);
     "image_url" := VStr "https://via.placeholder.com/200x200.png?text=Flipkart";
     "url" := VStr "https://www.flipkart.com/";
     "merchant" := VStr "flipkart";
     "price" := VInt (899 + i * 12);
     "currency" := VStr "INR" ]}.

Definition fetch_flipkart (query : string) (limit : Z) : list document :=
  if negb FLIPKART_KEYS_PRESENT
  then map (flipkart_item query) (Py.range 1 (limit + 1))
  else [].

(** [GET /providers] *)
Definition providers : list (string * bool) :=
  [("amazon", AMAZON_KEYS_PRESENT); ("flipkart", FLIPKART_KEYS_PRESENT)].

Definition prov_list (providers : option string) : list string :=
  match providers with
  | Some p =>
      if Py.truthy p
      then map (fun p => Py.lower (Py.strip p)) (Py.split "," p)
      else ["amazon"; "flipkart"]
  | None => ["amazon"; "flipkart"]
  end.

(** The body of the persistence loop of [search]. *)
Definition persist_result (r : document) : M unit :=
  _ ← create_document "listings" r;
  sku ← getitem r "sku";
  merchant ← getitem r "merchant";
  price ← getitem r "price";
  _ ← create_document "pricehistory"
        {[ "sku" := sku;
           "merchant" := merchant;
           "price" := price;
           "currency" := default (VStr "INR") (r !! "currency") ]};
  ret tt.

(** [GET /search]; the body is [{"results": results}]. *)
Definition search (query : string) (limit : Z) (providers : option string)
  : M (list document) :=
  let prov_list := prov_list providers in
  let results := [] in
  let results :=
    if str_in "amazon" prov_list then results ++ fetch_amazon query limit
    else results in
  let results :=
    if str_in "flipkart" prov_list then results ++ fetch_flipkart query limit
    else results in
  _ ← create_document "searchquery"
        {[ "query" := VStr query; "providers" := VStrs prov_list;
           "limit" := VInt limit ]};
  _ ← for_each results persist_result;
  ret results.

(** [POST /favorites]; the body is [{"ok": True, "id": fav_id}]. *)
Definition add_favorite (fav : FavoriteIn) : M (bool * string) :=
  fav_id ← create_document "favorite" (model_dump fav);
  ret (true, fav_id).

(** [GET /favorites] *)
Definition list_favorites (user_id : string) : M (list document) :=
  get_documents "favorite" (Some {[ "user_id" := VStr user_id ]}) 200.

(** [ObjectId(fav_id)] *)
Definition object_id (fav_id : string) : M ObjectId :=
  match Oid.parse fav_id with
  | Some o => ret o
  | None => raise (InvalidId fav_id)
  end.

(** [DELETE /favorites/{fav_id}]; the body is
    [{"ok": True, "deleted": deleted_count}]. *)
Definition delete_favorite (fav_id : string) : M (bool * Z) :=
  try_except
    (oid ← object_id fav_id;
     deleted_count ← Mongo.delete_one "favorite" {[ "_id" := VOid oid ]};
     ret (true, deleted_count))
    (fun e => raise (HTTPException 400 (exn_str e))).

End Service.
End Backend.

(** ** [src/main.py]: the synchronous service *)

(** [ProviderResult] *)
Record ProviderResult := mk_result {
  sku : string;
  title : string;
  image_url : option string;
  url : option string;
  merchant : string;
  price : Q;
  currency : string;
  rating : option Q;
  total_reviews : option Z;
  availability : option string
}.

(** [SearchResponse] *)
Record SearchResponse := mk_response {
  resp_query : string;
  resp_providers : list string;
  resp_results : list ProviderResult
}.

Module Main.
Section Service.
Context `{PyRuntime}.

(** [create_document] of the [database] module that [src/main.py] imports;
    that module is not part of the sources, so the service is verified for
    every behaviour of the function: it may return or raise, and change the
    store at will. *)
Variable database_create_document : string -> document -> M string.

(** A call to [create_document]: the call is entered in the journal, which
    the callee cannot alter. *)
Definition create_document (collection : string) (data : document) : M string :=
  fun w =>
    let (r, w') := database_create_document collection data w in
    (r, set_journal ((collection, data) :: journal w) w').

(** Calling [v.isoformat()]: [None] stands for the exception raised when
    the value has no such method. *)
Definition call_isoformat (v : value) : option string :=
  match v with
  | VDate t => Some (Datetime.isoformat t)
  | _ => None
  end.

(** The body of the loop of [serialize_mongo], on the item [(k, v)]. *)
Definition serialize_item (kv : string * value) (d : document) : document :=
  if has_isoformat (snd kv)
  then match call_isoformat (snd kv) with
       | Some s => <[fst kv := VStr s]> d
       | None => d
       end
  else d.

Definition serialize_mongo (doc : document) : document :=
  if bool_decide (doc = ∅) then doc
  else
    let d := doc in
    let d := match d !! "_id" with
             | None | Some VNone => d
             | Some id => <["_id" := VStr (py_str id)]> d
             end in
    foldr serialize_item d (map_to_list d).

Definition has_amazon_keys : M bool :=
  a ← getenv "AMAZON_ACCESS_KEY";
  b ← getenv "AMAZON_SECRET_KEY";
  c ← getenv "AMAZON_PARTNER_TAG";
  ret (env_truthy a && env_truthy b && env_truthy c).

Definition has_flipkart_keys : M bool :=
  a ← getenv "FLIPKART_AFFILIATE_ID";
  b ← getenv "FLIPKART_AFFILIATE_TOKEN";
  ret (env_truthy a && env_truthy b).

(** The mock item of index [i]; the float literals [50.5] and [4.2] are the
    rationals [101/2] and [21/5]. *)
Definition amazon_item (query : string) (i : Z) : ProviderResult :=
  {| sku := "AMZ-" +:+ Py.str_int i;
     title := Py.title query +:+ " - Amazon Variant " +:+ Py.str_int i;
     image_url := Some "https://images.unsplash.com/photo-1517336714731-489689fd1ca8?q=80&w=600";
     url := Some "https://www.amazon.in/";
     merchant := "amazon";
     price := Py.round2 (999 + inject_Z i * (101 # 2));
     currency := "INR";
     rating := Some (21 # 5)%Q;
     total_reviews := Some (1200 + i * 15);
     availability := Some "In Stock" |}.

Definition fetch_amazon (query : string) (limit : Z) : M (list ProviderResult) :=
  keys ← has_amazon_keys;
  if negb keys
  then ret (map (amazon_item query) (Py.range 1 (limit + 1)))
  else ret [].

(** The mock item of index [i]; [48.3] and [4.1] are [483/10] and
    [41/10]. *)
Definition flipkart_item (query : string) (i : Z) : ProviderResult :=
  {| sku := "FK-" +:+ Py.str_int i;
     title := Py.title query +:+ " - Flipkart Variant " +:+ Py.str_int i;
     image_url := Some "https://images.unsplash.com/photo-1516387938699-a93567ec168e?q=80&w=600";
     url := Some "https://www.flipkart.com/";
     merchant := "flipkart";
     price := Py.round2 (979 + inject_Z i * (483 # 10));
     currency := "INR";
     rating := Some (41 # 10)%Q;
     total_reviews := Some (900 + i * 25);
     availability := Some "In Stock" |}.

Definition fetch_flipkart (query : string) (limit : Z) : M (list ProviderResult) :=
  keys ← has_flipkart_keys;
  if negb keys
  then ret (map (flipkart_item query) (Py.range 1 (limit + 1)))
  else ret [].

(** [GET /providers]: the [configured] flag of amazon and of flipkart. *)
Definition providers_status : M (bool * bool) :=
  a ← has_amazon_keys;
  f ← has_flipkart_keys;
  ret (a, f).

Definition provider_list (providers : option string) : list string :=
  let requested :=
    match providers with
    | Some p => if Py.truthy p then Py.split "," p else ["amazon"; "flipkart"]
    | None => ["amazon"; "flipkart"]
    end in
  map (fun p => Py.lower (Py.strip p))
      (List.filter (fun p => Py.truthy (Py.strip p)) requested).

Definition opt_float (o : option Q) : value :=
  match o with Some x => VFloat x | None => VNone end.

Definition opt_int (o : option Z) : value :=
  match o with Some i => VInt i | None => VNone end.

Definition listing_doc (item : ProviderResult) (now : datetime) : document :=
  {[ "sku" := VStr (sku item);
     "title" := VStr (title item);
     "image_url" := opt_str (image_url item);
     "url" := opt_str (url item);
     "merchant" := VStr (merchant item);
     "price" := VFloat (price item);
     "currency" := VStr (currency item);
     "rating" := opt_float (rating item);
     "total_reviews" := opt_int (total_reviews item);
     "availability" := opt_str (availability item);
     "fetched_at" := VDate now ]}.

Definition pricehistory_doc (item : ProviderResult) (now : datetime) : document :=
  {[ "sku" := VStr (sku item);
     "merchant" := VStr (merchant item);
     "price" := VFloat (price item);
     "currency" := VStr (currency item);
     "timestamp" := VDate now ]}.

(** [try: create_document(collection, data)  except Exception: pass] *)
Definition try_create (collection : string) (data : document) : M unit :=
  try_except (_ ← create_document collection data; ret tt) (fun _ => ret tt).

(** The body of the persistence loop of [search_products]. *)
Definition persist_item (now : datetime) (item : ProviderResult) : M unit :=
  _ ← try_create "listing" (listing_doc item now);
  try_create "pricehistory" (pricehistory_doc item now).

(** [GET /search] *)
Definition search_products (q : string) (limit : Z) (providers : option string)
  : M SearchResponse :=
  let provider_list := provider_list providers in
  let all_results := [] in
  amazon ← (if str_in "amazon" provider_list then fetch_amazon q limit else ret []);
  let all_results := all_results ++ amazon in
  flipkart ← (if str_in "flipkart" provider_list then fetch_flipkart q limit else ret []);
  let all_results := all_results ++ flipkart in
  now ← now_utc;
  _ ← for_each all_results (persist_item now);
  _ ← try_create "searchquery"
        {[ "query" := VStr q; "providers" := VStrs provider_list;
           "created_at" := VDate now ]};
  ret (mk_response q provider_list all_results).

(** [if db is None: raise HTTPException(500, ...)] *)
Definition require_db : M unit :=
  fun w => if db_handle w then (Ok tt, w)
           else (Raise (HTTPException 500 "Database not configured"), w).

(** [POST /favorites] *)
Definition add_favorite (payload : FavoriteIn) : M (bool * string) :=
  let doc := model_dump payload in
  try_except
    (now ← now_utc;
     inserted_id ← create_document "favorite" (<["created_at" := VDate now]> doc);
     ret (true, inserted_id))
    (fun e => raise (HTTPException 500 (exn_str e))).

(** [GET /favorites] *)
Definition list_favorites (user_id : string) : M (list document) :=
  _ ← require_db;
  items ← Mongo.fetch (fun w =>
             Mongo.sort_desc "created_at"
               (Mongo.find {[ "user_id" := VStr user_id ]} (Mongo.coll "favorite" w)));
  ret (map serialize_mongo items).

(** [ObjectId(fav_id)] *)
Definition object_id (fav_id : string) : M ObjectId :=
  match Oid.parse fav_id with
  | Some o => ret o
  | None => raise (InvalidId fav_id)
  end.

(** [DELETE /favorites/{fav_id}]; the body is [{"ok": deleted_count == 1}]. *)
Definition delete_favorite (fav_id : string) : M bool :=
  _ ← require_db;
  try_except
    (oid ← object_id fav_id;
     deleted_count ← Mongo.delete_one "favorite" {[ "_id" := VOid oid ]};
     ret (deleted_count =? 1)%Z)
    (fun e => raise (HTTPException 400 (exn_str e))).

End Service.
End Main.

(** ** Specification vocabulary and closed instances *)

(** The next [k] round trips to the database server succeed. *)
Definition healthy (k : nat) (w : World) : bool :=
  negb (existsb id (firstn k (faults w))).

(** The variable [name] is set to a non-empty value. *)
Definition env_present (env : gmap string string) (name : string) : Prop :=
  exists s, env !! name = Some s /\ s <> "".

(** The [sku] and the [price] of a result of the asynchronous service. *)
Definition doc_sku (d : document) : option string :=
  match d !! "sku" with Some (VStr s) => Some s | _ => None end.

Definition doc_price (d : document) : option Q :=
  match d !! "price" with
  | Some (VInt p) => Some (inject_Z p)
  | Some (VFloat x) => Some x
  | _ => None
  end.

(** [l] is the mock catalogue of [n] items: the item of index [i] (from 1)
    has sku [prefix ++ str(i)] and price [base + i * step], and prices grow
    strictly along the list. *)
Definition mock_catalogue {A} (get_sku : A -> option string)
    (get_price : A -> option Q) (prefix : string) (base step : Q) (n : Z)
    (l : list A) : Prop :=
  length l = Z.to_nat n
  /\ (forall i, 1 <= i <= n ->
        exists x p, l !! Z.to_nat (i - 1) = Some x
                    /\ get_sku x = Some (prefix +:+ Py.str_int i)
                    /\ get_price x = Some p
                    /\ (p == base + inject_Z i * step)%Q)
  /\ (forall (i j : nat) x y p q,
        (i < j)%nat -> l !! i = Some x -> l !! j = Some y ->
        get_price x = Some p -> get_price y = Some q -> (p < q)%Q).

(** A world that differs from [w] in the fault oracle only. *)
Definition same_but_faults (w w1 : World) : Prop :=
  environ w1 = environ w /\ clock w1 = clock w /\ db_handle w1 = db_handle w
  /\ colls w1 = colls w /\ next_oid w1 = next_oid w /\ journal w1 = journal w.

(** The identifier under which [data] is stored in world [w]. *)
Definition assigned_id (data : document) (w : World) : value :=
  default (VOid (next_oid w)) (data !! "_id").

(** No stored document of [collection] has the [_id] that [data] brings. *)
Definition id_free (collection : string) (data : document) (w : World) : bool :=
  match data !! "_id" with
  | Some id => negb (existsb (Mongo.matches {["_id" := id]}) (Mongo.coll collection w))
  | None => true
  end.

(** The record [create_document] stores for [data] in world [w]. *)
Definition created_record (data : document) (w : World) : document :=
  <["_id" := assigned_id data w]>
    (<["created_at" := VDate (mk_datetime (hd 0 (clock w)) false)]> data).

(** The adapters' results for the provider list [provs], amazon first. *)
Definition backend_gathered (env : gmap string string) (q : string) (limit : Z)
    (provs : list string) : list document :=
  (if str_in "amazon" provs then Backend.fetch_amazon env q limit else [])
  ++ (if str_in "flipkart" provs then Backend.fetch_flipkart env q limit else []).

(** A result that carries the fields [search] reads, and no [_id]. *)
Definition result_shape (r : document) : Prop :=
  is_Some (r !! "sku") /\ is_Some (r !! "merchant") /\ is_Some (r !! "price")
  /\ is_Some (r !! "currency") /\ r !! "_id" = None.

(** [d] is the stored listing of the result [r]: [r] with a creation time
    and an identifier. *)
Definition listing_record (r d : document) : Prop :=
  exists id t, d = <["_id" := id]> (<["created_at" := VDate t]> r).

(** [d] is the stored price-history record of the result [r]. *)
Definition price_record (r d : document) : Prop :=
  d !! "sku" = r !! "sku" /\ d !! "merchant" = r !! "merchant"
  /\ d !! "price" = r !! "price" /\ d !! "currency" = r !! "currency"
  /\ d !! "timestamp" = None
  /\ exists t, d !! "created_at" = Some (VDate t).

(** What the adapter [m] returns in world [w]. *)
Definition returned {A} (m : M (list A)) (w : World) : list A :=
  match fst (m w) with
  | Ok l => l
  | Raise _ => []
  end.

(** The adapters' results for the provider list [provs], amazon first. *)
Definition main_gathered (q : string) (limit : Z) (provs : list string)
    (w : World) : list ProviderResult :=
  (if str_in "amazon" provs then returned (Main.fetch_amazon q limit) w else [])
  ++ (if str_in "flipkart" provs then returned (Main.fetch_flipkart q limit) w else []).

(** The calls to [create_document] that one search makes, in order. *)
Definition search_calls (q : string) (provs : list string) (now : datetime)
    (results : list ProviderResult) : list (string * document) :=
  flat_map (fun item => [("listing", Main.listing_doc item now);
                         ("pricehistory", Main.pricehistory_doc item now)])
           results
  ++ [("searchquery",
       {[ "query" := VStr q; "providers" := VStrs provs;
          "created_at" := VDate now ]})].

(** A runtime for the closed examples.  Its three renderings are not
    Python's; no statement below depends on them. *)
Definition example_runtime : PyRuntime :=
  {| float_repr := fun x => Py.str_int (Qnum x) +:+ "/" +:+ Py.str_int (Zpos (Qden x));
     list_repr := fun l => "[" +:+ String.concat ", " l +:+ "]";
     exn_str := fun e =>
       match e with
       | ConnectionFailure => "ConnectionFailure"
       | DuplicateKeyError => "DuplicateKeyError"
       | InvalidId oid => "InvalidId: " +:+ oid
       | KeyError k => "KeyError: " +:+ k
       | HTTPException _ detail => detail
       | OtherError msg => msg
       end |}.

(** A [create_document] for [src/main.py] whose database is down. *)
Definition unavailable_store : string -> document -> M string :=
  fun _ _ => raise (OtherError "Database not available").

(** A world with nothing stored, no credentials, a configured database
    handle, a reachable server and the given clock readings. *)
Definition fresh_world (readings : list Z) : World :=
  mk_world ∅ readings [] true ∅ 0%N [].

(** The documents handed to [create_document] for [collection], among
    [calls]. *)
Definition calls_to (collection : string) (calls : list (string * document))
  : list document :=
  map snd (List.filter (fun cd => String.eqb (fst cd) collection) calls).

(** The price-history document [d] carries the sku, merchant, price and
    currency of the result [item], and the time [now]. *)
Definition price_call (now : datetime) (item : ProviderResult) (d : document)
  : Prop :=
  d !! "sku" = Some (VStr (sku item))
  /\ d !! "merchant" = Some (VStr (merchant item))
  /\ d !! "price" = Some (VFloat (price item))
  /\ d !! "currency" = Some (VStr (currency item))
  /\ d !! "timestamp" = Some (VDate now).

(** The listing document [d] is that of [item], fetched at [now]. *)
Definition listing_call (now : datetime) (item : ProviderResult) (d : document)
  : Prop :=
  d !! "sku" = Some (VStr (sku item))
  /\ d !! "merchant" = Some (VStr (merchant item))
  /\ d !! "fetched_at" = Some (VDate now).

(** The stored listing [d] of the asynchronous service has a creation time
    but neither [fetched_at] nor [timestamp]. *)
Definition created_only (d : document) : Prop :=
  (exists t, d !! "created_at" = Some (VDate t))
  /\ d !! "fetched_at" = None /\ d !! "timestamp" = None.

(** [a] stands before [b] in the order "newest first" on [created_at]. *)
Definition newer_or_equal (a b : document) : Prop :=
  Mongo.geb (Mongo.sort_key "created_at" a) (Mongo.sort_key "created_at" b) = true.

(** [d["_id"] = str(d["_id"])] on a stored document. *)
Definition with_string_id `{PyRuntime} (d : document) : document :=
  <["_id" := VStr (py_str (default VNone (d !! "_id")))]> d.

(** A favorite of user ["u"] created at time [i]. *)
Definition favorite_at (i : nat) : document :=
  {[ "_id" := VOid (N.of_nat i); "user_id" := VStr "u";
     "created_at" := VDate (mk_datetime (Z.of_nat i) true) ]}.

(** A world whose [favorite] collection holds [n] favorites of user ["u"],
    oldest first. *)
Definition world_with_favorites (n : nat) : World :=
  mk_world ∅ [] [] true {[ "favorite" := map favorite_at (seq 1 n) ]}
           (N.of_nat (S n)) [].

(** The JSON form of a value: a datetime becomes its ISO-8601 string. *)
Definition json_value (v : value) : value :=
  match v with
  | VDate t => VStr (Datetime.isoformat t)
  | _ => v
  end.

(** The serialized form of an [_id]: its string, unless it is [None]. *)
Definition id_string `{PyRuntime} (v : value) : value :=
  match v with
  | VNone => VNone
  | _ => VStr (py_str v)
  end.

(** * Properties *)

(** ** Sanity checks of the built-ins *)

Example split_ex : Py.split "," "amazon, Flipkart,,x" = ["amazon"; " Flipkart"; ""; "x"].
Proof. reflexivity. Qed.

Example strip_ex : Py.strip "  a b  " = "a b".
Proof. reflexivity. Qed.

Example title_ex : Py.title "gaming laptop 15x" = "Gaming Laptop 15X".
Proof. reflexivity. Qed.

Example str_int_ex : Py.str_int 120 = "120" /\ Py.str_int (-7) = "-7" /\ Py.str_int 0 = "0".
Proof. vm_compute. auto. Qed.

Example range_ex : Py.range 1 4 = [1; 2; 3] /\ Py.range 1 0 = [].
Proof. vm_compute. auto. Qed.

Example isoformat_ex :
  Datetime.isoformat (mk_datetime 1700000000123456 true)
    = "2023-11-14T22:13:20.123456+00:00"
  /\ Datetime.isoformat (mk_datetime 951782400000000 false) = "2000-02-29T00:00:00"
  /\ Datetime.str (mk_datetime 0 false) = "1970-01-01 00:00:00".
Proof. vm_compute. auto. Qed.

Example oid_ex :
  Oid.str 255%N = "0000000000000000000000ff"
  /\ Oid.parse "0000000000000000000000FF" = Some 255%N
  /\ Oid.parse "abc" = None
  /\ Oid.parse "zzzzzzzzzzzzzzzzzzzzzzzz" = None.
Proof. vm_compute. auto. Qed.

(** ** Python built-ins *)

Lemma range_length lo hi : length (Py.range lo hi) = Z.to_nat (hi - lo).
Proof. unfold Py.range. by rewrite length_map, length_seq. Qed.

Lemma range_lookup lo hi (k : nat) :
  (k < Z.to_nat (hi - lo))%nat -> Py.range lo hi !! k = Some (lo + Z.of_nat k).
Proof.
  intros Hk. unfold Py.range.
  rewrite list_lookup_fmap, lookup_seq_lt by done. done.
Qed.

Lemma range_lookup_inv lo hi (k : nat) i :
  Py.range lo hi !! k = Some i -> i = lo + Z.of_nat k.
Proof.
  intros Hk. pose proof (lookup_lt_Some _ _ _ Hk) as Hlt.
  rewrite range_length in Hlt. rewrite range_lookup in Hk by done. congruence.
Qed.

Lemma round_half_even_Z (x : Q) (m : Z) :
  (x == inject_Z m)%Q -> Py.round_half_even x = m.
Proof.
  intros Hx. unfold Py.round_half_even.
  assert (Hf : Qfloor x = m) by (rewrite Hx; apply Qfloor_Z).
  rewrite Hf.
  assert (Hr : (x - inject_Z m == 0)%Q) by (rewrite Hx; ring).
  rewrite Hr. reflexivity.
Qed.

Lemma round2_exact (x : Q) (m : Z) :
  (x * 100 == inject_Z m)%Q -> (Py.round2 x == x)%Q.
Proof.
  intros Hx. unfold Py.round2. rewrite (round_half_even_Z _ _ Hx), <- Hx.
  field.
Qed.

Lemma mock_catalogue_map {A} (get_sku : A -> option string)
    (get_price : A -> option Q) prefix (base step : Q) (f : Z -> A) (n : Z) :
  0 <= n -> (0 < step)%Q ->
  (forall i, get_sku (f i) = Some (prefix +:+ Py.str_int i)) ->
  (forall i, exists p, get_price (f i) = Some p
                       /\ (p == base + inject_Z i * step)%Q) ->
  mock_catalogue get_sku get_price prefix base step n
                 (map f (Py.range 1 (n + 1))).
Proof.
  intros Hn Hstep Hsku Hprice. repeat split.
  - rewrite length_map, range_length. f_equal. lia.
  - intros i Hi. destruct (Hprice i) as (p & Hp & Hpe).
    exists (f i), p. repeat split; try done.
    rewrite list_lookup_fmap, range_lookup by lia.
    simpl. f_equal. f_equal. lia.
  - intros i j x y p q Hij Hx Hy Hp Hq.
    rewrite list_lookup_fmap in Hx, Hy.
    destruct (Py.range 1 (n + 1) !! i) as [a|] eqn:Ha; [|done].
    destruct (Py.range 1 (n + 1) !! j) as [b|] eqn:Hb; [|done].
    apply range_lookup_inv in Ha, Hb. simpl in Hx, Hy.
    injection Hx as <-. injection Hy as <-.
    destruct (Hprice a) as (p' & Hp' & Hpe). destruct (Hprice b) as (q' & Hq' & Hqe).
    rewrite Hp in Hp'. rewrite Hq in Hq'. injection Hp' as <-. injection Hq' as <-.
    rewrite Hpe, Hqe.
    apply Qplus_lt_r. apply Qmult_lt_compat_r; [done|].
    rewrite <- Zlt_Qlt. lia.
Qed.

Lemma env_truthy_present (env : gmap string string) name :
  env_present env name -> env_truthy (env !! name) = true.
Proof. intros (s & -> & Hs). by destruct s. Qed.

Ltac rewrite_present :=
  repeat match goal with
         | H : env_present ?e ?k |- _ =>
             rewrite (env_truthy_present e k H); clear H
         end.

(** ** Provider adapters *)

Lemma main_has_amazon_keys w :
  Main.has_amazon_keys w
  = (Ok (env_truthy (environ w !! "AMAZON_ACCESS_KEY")
         && env_truthy (environ w !! "AMAZON_SECRET_KEY")
         && env_truthy (environ w !! "AMAZON_PARTNER_TAG")), w).
Proof. reflexivity. Qed.

Lemma main_has_flipkart_keys w :
  Main.has_flipkart_keys w
  = (Ok (env_truthy (environ w !! "FLIPKART_AFFILIATE_ID")
         && env_truthy (environ w !! "FLIPKART_AFFILIATE_TOKEN")), w).
Proof. reflexivity. Qed.

Lemma main_fetch_amazon q n w :
  Main.fetch_amazon q n w
  = (Ok (if fst (Main.has_amazon_keys w) is Ok true then []
         else map (Main.amazon_item q) (Py.range 1 (n + 1))), w).
Proof.
  unfold Main.fetch_amazon. rewrite main_has_amazon_keys.
  unfold mbind, M_bind, bind. rewrite main_has_amazon_keys. simpl.
  by destruct (_ && _).
Qed.

Lemma main_fetch_flipkart q n w :
  Main.fetch_flipkart q n w
  = (Ok (if fst (Main.has_flipkart_keys w) is Ok true then []
         else map (Main.flipkart_item q) (Py.range 1 (n + 1))), w).
Proof.
  unfold Main.fetch_flipkart. rewrite main_has_flipkart_keys.
  unfold mbind, M_bind, bind. rewrite main_has_flipkart_keys. simpl.
  by destruct (_ && _).
Qed.

Lemma amazon_price_exact i :
  (Py.round2 (999 + inject_Z i * (101 # 2)) == 999 + inject_Z i * (101 # 2))%Q.
Proof.
  apply (round2_exact _ (99900 + 5050 * i)).
  rewrite inject_Z_plus, inject_Z_mult. field.
Qed.

Lemma flipkart_price_exact i :
  (Py.round2 (979 + inject_Z i * (483 # 10)) == 979 + inject_Z i * (483 # 10))%Q.
Proof.
  apply (round2_exact _ (97900 + 4830 * i)).
  rewrite inject_Z_plus, inject_Z_mult. field.
Qed.

(** C1. With the credentials of a provider not configured, [fetch_amazon]
    and [fetch_flipkart] of both services return, for every query and every
    limit [n >= 0], exactly [n] results: the result of index [i] has sku
    ["AMZ-i"] (resp. ["FK-i"]) and a price affine in [i], so that prices
    increase strictly along the list. *)
Theorem C1_mock_catalogues (env : gmap string string) (w : World)
    (q : string) (n : Z) :
  0 <= n ->
  (Backend.AMAZON_KEYS_PRESENT env = false ->
   mock_catalogue doc_sku doc_price "AMZ-" 999 10 n (Backend.fetch_amazon env q n))
  /\ (Backend.FLIPKART_KEYS_PRESENT env = false ->
      mock_catalogue doc_sku doc_price "FK-" 899 12 n (Backend.fetch_flipkart env q n))
  /\ (fst (Main.has_amazon_keys w) = Ok false ->
      exists l, Main.fetch_amazon q n w = (Ok l, w)
                /\ mock_catalogue (fun r => Some (sku r)) (fun r => Some (price r))
                                  "AMZ-" 999 (101 # 2) n l)
  /\ (fst (Main.has_flipkart_keys w) = Ok false ->
      exists l, Main.fetch_flipkart q n w = (Ok l, w)
                /\ mock_catalogue (fun r => Some (sku r)) (fun r => Some (price r))
                                  "FK-" 979 (483 # 10) n l).
Proof.
  intros Hn. split; [|split; [|split]].
  - intros Hk. unfold Backend.fetch_amazon. rewrite Hk. simpl.
    apply mock_catalogue_map; [done|done|done|].
    intros i. eexists. split; [reflexivity|].
    rewrite inject_Z_plus, inject_Z_mult. ring.
  - intros Hk. unfold Backend.fetch_flipkart. rewrite Hk. simpl.
    apply mock_catalogue_map; [done|done|done|].
    intros i. eexists. split; [reflexivity|].
    rewrite inject_Z_plus, inject_Z_mult. ring.
  - intros Hk. eexists. split; [apply main_fetch_amazon|]. rewrite Hk.
    apply mock_catalogue_map; [done|done|done|].
    intros i. eexists. split; [reflexivity|]. apply amazon_price_exact.
  - intros Hk. eexists. split; [apply main_fetch_flipkart|]. rewrite Hk.
    apply mock_catalogue_map; [done|done|done|].
    intros i. eexists. split; [reflexivity|]. apply flipkart_price_exact.
Qed.

(** C1 at [n = 3] without credentials. *)
Lemma C1_witness :
  mock_catalogue doc_sku doc_price "AMZ-" 999 10 3 (Backend.fetch_amazon ∅ "phone" 3)
  /\ exists l, Main.fetch_flipkart "phone" 3 (fresh_world []) = (Ok l, fresh_world [])
               /\ mock_catalogue (fun r => Some (sku r)) (fun r => Some (price r))
                                 "FK-" 979 (483 # 10) 3 l.
Proof.
  assert (H3 : 0 <= 3) by (vm_compute; discriminate).
  split.
  - apply (proj1 (C1_mock_catalogues ∅ (fresh_world []) "phone" 3 H3)). reflexivity.
  - apply (proj2 (proj2 (proj2 (C1_mock_catalogues ∅ (fresh_world []) "phone" 3 H3)))).
    reflexivity.
Defined.

(** C6. When the three Amazon variables are set (to non-empty values),
    [/providers] reports amazon as configured (enabled) and [fetch_amazon]
    returns the empty list for every query and limit; likewise for the two
    Flipkart variables and [fetch_flipkart]. *)
Theorem C6_configured_adapters_return_nothing (env : gmap string string)
    (w : World) :
  (env_present env "AMAZON_ACCESS_KEY" -> env_present env "AMAZON_SECRET_KEY" ->
   env_present env "AMAZON_PARTNER_TAG" ->
   In ("amazon", true) (Backend.providers env)
   /\ forall q n, Backend.fetch_amazon env q n = [])
  /\ (env_present env "FLIPKART_AFFILIATE_ID" ->
      env_present env "FLIPKART_AFFILIATE_TOKEN" ->
      In ("flipkart", true) (Backend.providers env)
      /\ forall q n, Backend.fetch_flipkart env q n = [])
  /\ (env_present (environ w) "AMAZON_ACCESS_KEY" ->
      env_present (environ w) "AMAZON_SECRET_KEY" ->
      env_present (environ w) "AMAZON_PARTNER_TAG" ->
      (exists f, Main.providers_status w = (Ok (true, f), w))
      /\ forall q n, Main.fetch_amazon q n w = (Ok [], w))
  /\ (env_present (environ w) "FLIPKART_AFFILIATE_ID" ->
      env_present (environ w) "FLIPKART_AFFILIATE_TOKEN" ->
      (exists a, Main.providers_status w = (Ok (a, true), w))
      /\ forall q n, Main.fetch_flipkart q n w = (Ok [], w)).
Proof.
  split; [|split; [|split]]; intros; (split; [|intros q n]).
  - unfold Backend.providers, Backend.AMAZON_KEYS_PRESENT. simpl.
    rewrite_present. simpl. auto.
  - unfold Backend.fetch_amazon, Backend.AMAZON_KEYS_PRESENT. simpl.
    by rewrite_present.
  - unfold Backend.providers, Backend.FLIPKART_KEYS_PRESENT. simpl.
    rewrite_present. simpl. auto.
  - unfold Backend.fetch_flipkart, Backend.FLIPKART_KEYS_PRESENT. simpl.
    by rewrite_present.
  - unfold Main.providers_status, mbind, M_bind, bind.
    rewrite main_has_amazon_keys, main_has_flipkart_keys.
    rewrite_present. simpl. eauto.
  - rewrite main_fetch_amazon, main_has_amazon_keys.
    by rewrite_present.
  - unfold Main.providers_status, mbind, M_bind, bind.
    rewrite main_has_amazon_keys, main_has_flipkart_keys.
    rewrite_present. simpl. eauto.
  - rewrite main_fetch_flipkart, main_has_flipkart_keys.
    by rewrite_present.
Qed.

(** C6 with the five variables set. *)
Lemma C6_witness :
  let env : gmap string string :=
    {[ "AMAZON_ACCESS_KEY" := "ak"; "AMAZON_SECRET_KEY" := "sk";
       "AMAZON_PARTNER_TAG" := "tag"; "FLIPKART_AFFILIATE_ID" := "id";
       "FLIPKART_AFFILIATE_TOKEN" := "tok" ]} in
  (In ("amazon", true) (Backend.providers env)
   /\ forall q n, Backend.fetch_amazon env q n = [])
  /\ (In ("flipkart", true) (Backend.providers env)
      /\ forall q n, Backend.fetch_flipkart env q n = []).
Proof.
  intros env. split.
  - apply (proj1 (C6_configured_adapters_return_nothing env (fresh_world [])));
      by eexists.
  - apply (proj1 (proj2 (C6_configured_adapters_return_nothing env (fresh_world []))));
      by eexists.
Defined.

(** ** The store *)

Lemma coll_insert_eq name c m w :
  Mongo.coll name (set_colls (<[name := c]> m) w) = c.
Proof. unfold Mongo.coll. simpl. by rewrite lookup_insert_eq. Qed.

Lemma coll_insert_ne name name' c w :
  name <> name' ->
  Mongo.coll name' (set_colls (<[name := c]> (colls w)) w) = Mongo.coll name' w.
Proof. intros Hne. unfold Mongo.coll. simpl. by rewrite lookup_insert_ne. Qed.

Lemma healthy_0 w : healthy 0 w = true.
Proof. reflexivity. Qed.

Lemma healthy_S k w :
  healthy (S k) w
  = match faults w with
    | [] => true
    | b :: fs => negb b && healthy k (set_faults fs w)
    end.
Proof.
  unfold healthy. destruct (faults w) as [|b fs]; [done|].
  simpl. by rewrite negb_orb.
Qed.

Lemma healthy_nil k w : faults w = [] -> healthy k w = true.
Proof. unfold healthy. intros ->. by destruct k. Qed.

(** The outcome of one round trip. *)
Lemma round_trip_cases w :
  match faults w with
  | true :: fs => Mongo.round_trip w = (Raise ConnectionFailure, set_faults fs w)
  | false :: fs => Mongo.round_trip w = (Ok tt, set_faults fs w)
  | [] => Mongo.round_trip w = (Ok tt, w)
  end.
Proof. unfold Mongo.round_trip. by destruct (faults w) as [|[] fs]. Qed.

Lemma round_trip_ok k w :
  healthy (S k) w = true ->
  exists w1, Mongo.round_trip w = (Ok tt, w1)
             /\ same_but_faults w w1
             /\ faults w1 = skipn 1 (faults w)
             /\ healthy k w1 = true.
Proof.
  rewrite healthy_S. pose proof (round_trip_cases w) as Hrt.
  destruct (faults w) as [|[] fs] eqn:Hf; try done; intros Hh.
  - exists w. repeat split; try done. by apply healthy_nil.
  - eexists. split; [exact Hrt|]. repeat split; done.
Qed.

Lemma round_trip_fault k w :
  healthy (S k) w = false ->
  (exists w1, Mongo.round_trip w = (Raise ConnectionFailure, w1))
  \/ (exists w1, Mongo.round_trip w = (Ok tt, w1)
                 /\ same_but_faults w w1
                 /\ faults w1 = skipn 1 (faults w)
                 /\ healthy k w1 = false).
Proof.
  rewrite healthy_S. pose proof (round_trip_cases w) as Hrt.
  destruct (faults w) as [|[] fs] eqn:Hf; try done; intros Hh.
  - left. eauto.
  - right. eexists. split; [exact Hrt|]. repeat split; done.
Qed.

Lemma read_clock_run w :
  exists w1, read_clock w = (Ok (hd 0 (clock w)), w1)
             /\ clock w1 = skipn 1 (clock w)
             /\ environ w1 = environ w /\ faults w1 = faults w
             /\ db_handle w1 = db_handle w /\ colls w1 = colls w
             /\ next_oid w1 = next_oid w /\ journal w1 = journal w.
Proof.
  unfold read_clock. destruct (clock w) as [|t ts] eqn:Hc.
  - exists w. by rewrite Hc.
  - eexists. split; [reflexivity|]. repeat split; done.
Qed.

Lemma healthy_ext k w w1 : faults w1 = faults w -> healthy k w1 = healthy k w.
Proof. unfold healthy. by intros ->. Qed.

(** ** [create_document] of the asynchronous service *)

Section Create.
Context `{PyRuntime}.

Lemma create_document_ok k collection data w :
  healthy (S k) w = true ->
  id_free collection data w = true ->
  exists w',
    Backend.create_document collection data w
      = (Ok (py_str (assigned_id data w)), w')
    /\ Mongo.coll collection w'
       = Mongo.coll collection w ++ [created_record data w]
    /\ (forall c, c <> collection -> Mongo.coll c w' = Mongo.coll c w)
    /\ faults w' = skipn 1 (faults w)
    /\ clock w' = skipn 1 (clock w)
    /\ healthy k w' = true.
Proof.
  intros Hh Hfree.
  destruct (read_clock_run w) as (w1 & Hrc & Hc1 & He1 & Hf1 & Hd1 & Hco1 & Hn1 & Hj1).
  assert (Hh1 : healthy (S k) w1 = true) by (by rewrite (healthy_ext _ _ _ Hf1)).
  destruct (round_trip_ok k w1 Hh1) as (w2 & Hrt & (He2 & Hc2 & Hd2 & Hco2 & Hn2 & Hj2) & Hf2 & Hh2).
  assert (Hcoll : forall c, Mongo.coll c w2 = Mongo.coll c w)
    by (intros c; unfold Mongo.coll; by rewrite Hco2, Hco1).
  unfold Backend.create_document, utcnow, mbind, M_bind, bind, ret.
  rewrite Hrc. unfold Mongo.insert_one, bind. rewrite Hrt.
  unfold created_record, assigned_id, id_free in *.
  rewrite lookup_insert_ne by done.
  destruct (data !! "_id") as [id|] eqn:Hid; simpl.
  - rewrite Hcoll. apply negb_true_iff in Hfree. rewrite Hfree.
    eexists. split; [reflexivity|]. repeat split.
    + rewrite coll_insert_eq. f_equal. f_equal.
      symmetry. apply insert_id. by rewrite lookup_insert_ne.
    + intros c Hc. rewrite coll_insert_ne by done. apply Hcoll.
    + simpl. by rewrite Hf2, Hf1.
    + simpl. by rewrite Hc2.
    + rewrite <- Hh2. by apply healthy_ext.
  - eexists. split; [by rewrite Hn2, Hn1|]. repeat split.
    + unfold Mongo.coll at 1. simpl. rewrite lookup_insert_eq. simpl.
      by rewrite Hcoll.
    + intros c Hc. unfold Mongo.coll at 1. simpl. rewrite lookup_insert_ne by done.
      apply Hcoll.
    + simpl. by rewrite Hf2, Hf1.
    + simpl. by rewrite Hc2.
    + rewrite <- Hh2. by apply healthy_ext.
Qed.

Lemma create_document_fault collection data w fs :
  faults w = true :: fs ->
  exists w', Backend.create_document collection data w
             = (Raise ConnectionFailure, w').
Proof.
  intros Hf.
  destruct (read_clock_run w) as (w1 & Hrc & Hc1 & He1 & Hf1 & _).
  pose proof (round_trip_cases w1) as Hrt. rewrite Hf1, Hf in Hrt.
  unfold Backend.create_document, utcnow, mbind, M_bind, bind, ret.
  rewrite Hrc. unfold Mongo.insert_one, bind. rewrite Hrt. eauto.
Qed.

End Create.

Lemma healthy_split j : forall k w w1,
  faults w1 = skipn j (faults w) ->
  healthy (j + k) w = healthy j w && healthy k w1.
Proof.
  unfold healthy. intros k w w1 ->. generalize (faults w) as l.
  induction j as [|j IH]; intros l; [done|].
  destruct l as [|b l]; simpl.
  - by destruct k.
  - destruct b; simpl; [done|]. apply IH.
Qed.

Lemma healthy_1_false w :
  healthy 1 w = false -> exists fs, faults w = true :: fs.
Proof.
  unfold healthy. destruct (faults w) as [|[] fs]; simpl; try done. eauto.
Qed.

(** ** [search] of the asynchronous service *)

Lemma backend_gathered_shape env q limit provs :
  Forall result_shape (backend_gathered env q limit provs).
Proof.
  unfold backend_gathered, Backend.fetch_amazon, Backend.fetch_flipkart.
  apply Forall_app. split.
  - destruct (str_in "amazon" provs), (negb (Backend.AMAZON_KEYS_PRESENT env));
      try by constructor.
    apply Forall_forall. intros r Hr. apply list_elem_of_In, in_map_iff in Hr as (i & <- & _).
    unfold result_shape, Backend.amazon_item.
    repeat split; by simplify_map_eq.
  - destruct (str_in "flipkart" provs), (negb (Backend.FLIPKART_KEYS_PRESENT env));
      try by constructor.
    apply Forall_forall. intros r Hr. apply list_elem_of_In, in_map_iff in Hr as (i & <- & _).
    unfold result_shape, Backend.flipkart_item.
    repeat split; by simplify_map_eq.
Qed.

Section Search.
Context `{PyRuntime}.

Lemma persist_result_ok r w :
  result_shape r -> healthy 2 w = true ->
  exists w' lrec prec,
    Backend.persist_result r w = (Ok tt, w')
    /\ Mongo.coll "listings" w' = Mongo.coll "listings" w ++ [lrec]
    /\ Mongo.coll "pricehistory" w' = Mongo.coll "pricehistory" w ++ [prec]
    /\ (forall c, c <> "listings" -> c <> "pricehistory" ->
                  Mongo.coll c w' = Mongo.coll c w)
    /\ listing_record r lrec /\ price_record r prec
    /\ faults w' = skipn 2 (faults w).
Proof.
  intros ([sku Hsku] & [mer Hmer] & [pr Hpr] & [cur Hcur] & Hid) Hh.
  assert (Hh1 : healthy 1 w = true /\ forall w1, faults w1 = skipn 1 (faults w) ->
                                                 healthy 1 w1 = true).
  { split.
    - pose proof (healthy_split 1 1 w (set_faults (skipn 1 (faults w)) w) eq_refl) as Hs.
      simpl in Hs. rewrite Hh in Hs. symmetry in Hs. by apply andb_true_iff in Hs as [? ?].
    - intros w1 Hw1. pose proof (healthy_split 1 1 w w1 Hw1) as Hs.
      simpl in Hs. rewrite Hh in Hs. symmetry in Hs. by apply andb_true_iff in Hs as [? ?]. }
  destruct Hh1 as [Hh1 Hh2].
  destruct (create_document_ok 0 "listings" r w Hh1) as (w1 & Hrun1 & Hl1 & Ho1 & Hf1 & Hc1 & _).
  { unfold id_free. by rewrite Hid. }
  set (pdoc := ({[ "sku" := sku; "merchant" := mer; "price" := pr;
                   "currency" := default (VStr "INR") (r !! "currency") ]} : document)).
  assert (Hpid : pdoc !! "_id" = None) by (unfold pdoc; by simplify_map_eq).
  destruct (create_document_ok 0 "pricehistory" pdoc w1 (Hh2 w1 Hf1))
    as (w2 & Hrun2 & Hl2 & Ho2 & Hf2 & Hc2 & _).
  { unfold id_free. by rewrite Hpid. }
  exists w2, (created_record r w), (created_record pdoc w1). split.
  { unfold Backend.persist_result, mbind, M_bind, bind.
    rewrite Hrun1. unfold getitem. rewrite Hsku, Hmer, Hpr. unfold ret.
    fold pdoc. by rewrite Hrun2. }
  split_and!.
  - rewrite Ho2 by done. exact Hl1.
  - rewrite Hl2. by rewrite Ho1.
  - intros c Hc1' Hc2'. rewrite Ho2, Ho1 by done. done.
  - unfold listing_record, created_record. eauto.
  - unfold price_record, created_record, pdoc. rewrite Hcur.
    split_and!; try by simplify_map_eq.
    eexists. by simplify_map_eq.
  - rewrite Hf2, Hf1. by rewrite skipn_skipn.
Qed.

Lemma persist_result_fault r w :
  result_shape r -> healthy 2 w = false ->
  exists w', Backend.persist_result r w = (Raise ConnectionFailure, w').
Proof.
  intros ([sku Hsku] & [mer Hmer] & [pr Hpr] & [cur Hcur] & Hid) Hh.
  unfold Backend.persist_result, mbind, M_bind, bind.
  destruct (healthy 1 w) eqn:Hh1.
  - destruct (create_document_ok 0 "listings" r w Hh1) as (w1 & Hrun1 & _ & _ & Hf1 & _).
    { unfold id_free. by rewrite Hid. }
    rewrite Hrun1. unfold getitem. rewrite Hsku, Hmer, Hpr. unfold ret.
    pose proof (healthy_split 1 1 w w1 Hf1) as Hs. simpl in Hs.
    rewrite Hh, Hh1 in Hs. simpl in Hs. symmetry in Hs.
    apply healthy_1_false in Hs as [fs Hfs].
    edestruct (create_document_fault "pricehistory") as [w2 ->]; [exact Hfs|].
    eauto.
  - apply healthy_1_false in Hh1 as [fs Hfs].
    edestruct (create_document_fault "listings") as [w2 ->]; [exact Hfs|].
    eauto.
Qed.

Lemma persist_loop_ok rs : forall w,
  Forall result_shape rs -> healthy (2 * length rs) w = true ->
  exists w' lrecs precs,
    for_each rs Backend.persist_result w = (Ok tt, w')
    /\ Mongo.coll "listings" w' = Mongo.coll "listings" w ++ lrecs
    /\ Mongo.coll "pricehistory" w' = Mongo.coll "pricehistory" w ++ precs
    /\ (forall c, c <> "listings" -> c <> "pricehistory" ->
                  Mongo.coll c w' = Mongo.coll c w)
    /\ Forall2 listing_record rs lrecs /\ Forall2 price_record rs precs.
Proof.
  induction rs as [|r rs IH]; intros w Hrs Hh.
  - exists w, [], []. rewrite !app_nil_r. split_and!; by constructor.
  - inversion Hrs as [|? ? Hr Hrs']; subst.
    replace (2 * length (r :: rs))%nat with (2 + 2 * length rs)%nat in Hh by (simpl; lia).
    assert (Hh2 : healthy 2 w = true).
    { pose proof (healthy_split 2 (2 * length rs) w
                    (set_faults (skipn 2 (faults w)) w) eq_refl) as Hs.
      rewrite Hh in Hs. symmetry in Hs. by apply andb_true_iff in Hs as [? ?]. }
    destruct (persist_result_ok r w Hr Hh2)
      as (w1 & lrec & prec & Hrun & Hl & Hp & Ho & Hlr & Hpr & Hf).
    assert (Hh' : healthy (2 * length rs) w1 = true).
    { pose proof (healthy_split 2 (2 * length rs) w w1 Hf) as Hs.
      rewrite Hh in Hs. symmetry in Hs. by apply andb_true_iff in Hs as [? ?]. }
    destruct (IH w1 Hrs' Hh') as (w2 & lrecs & precs & Hrun' & Hl' & Hp' & Ho' & Hlrs & Hprs).
    exists w2, (lrec :: lrecs), (prec :: precs). split.
    { simpl. unfold bind. by rewrite Hrun. }
    split_and!.
    + rewrite Hl', Hl. by rewrite <- app_assoc.
    + rewrite Hp', Hp. by rewrite <- app_assoc.
    + intros c Hc1 Hc2. by rewrite Ho', Ho.
    + by constructor.
    + by constructor.
Qed.

Lemma persist_loop_fault rs : forall w,
  Forall result_shape rs -> healthy (2 * length rs) w = false ->
  exists w', for_each rs Backend.persist_result w = (Raise ConnectionFailure, w').
Proof.
  induction rs as [|r rs IH]; intros w Hrs Hh; [done|].
  inversion Hrs as [|? ? Hr Hrs']; subst.
  replace (2 * length (r :: rs))%nat with (2 + 2 * length rs)%nat in Hh by (simpl; lia).
  simpl. unfold bind.
  destruct (healthy 2 w) eqn:Hh2.
  - destruct (persist_result_ok r w Hr Hh2) as (w1 & ? & ? & -> & _ & _ & _ & _ & _ & Hf).
    apply IH; [done|].
    pose proof (healthy_split 2 (2 * length rs) w w1 Hf) as Hs.
    rewrite Hh, Hh2 in Hs. by symmetry.
  - destruct (persist_result_fault r w Hr Hh2) as [w1 ->]. eauto.
Qed.

End Search.

Section SearchRun.
Context `{PyRuntime}.

Lemma backend_search_unfold env q limit providers :
  Backend.search env q limit providers
  = let results := backend_gathered env q limit (Backend.prov_list providers) in
    bind (Backend.create_document "searchquery"
            {[ "query" := VStr q;
               "providers" := VStrs (Backend.prov_list providers);
               "limit" := VInt limit ]})
         (fun _ => bind (for_each results Backend.persist_result)
                        (fun _ => ret results)).
Proof.
  unfold Backend.search, backend_gathered, mbind, M_bind. simpl.
  destruct (str_in "amazon" _), (str_in "flipkart" _); simpl;
    by rewrite ?app_nil_r.
Qed.

Lemma backend_search_ok env q limit providers w :
  let results := backend_gathered env q limit (Backend.prov_list providers) in
  healthy (1 + 2 * length results) w = true ->
  exists w' lrecs precs,
    Backend.search env q limit providers w = (Ok results, w')
    /\ Mongo.coll "listings" w' = Mongo.coll "listings" w ++ lrecs
    /\ Mongo.coll "pricehistory" w' = Mongo.coll "pricehistory" w ++ precs
    /\ Forall2 listing_record results lrecs
    /\ Forall2 price_record results precs.
Proof.
  intros results Hh. rewrite backend_search_unfold. fold results. simpl.
  set (qdoc := ({[ "query" := VStr q;
                   "providers" := VStrs (Backend.prov_list providers);
                   "limit" := VInt limit ]} : document)).
  assert (Hh1 : healthy 1 w = true).
  { pose proof (healthy_split 1 (2 * length results) w
                  (set_faults (skipn 1 (faults w)) w) eq_refl) as Hs.
    rewrite Hh in Hs. symmetry in Hs. by apply andb_true_iff in Hs as [? ?]. }
  destruct (create_document_ok 0 "searchquery" qdoc w Hh1)
    as (w1 & Hrun1 & _ & Ho1 & Hf1 & _).
  { unfold id_free, qdoc. by simplify_map_eq. }
  assert (Hh' : healthy (2 * length results) w1 = true).
  { pose proof (healthy_split 1 (2 * length results) w w1 Hf1) as Hs.
    rewrite Hh in Hs. symmetry in Hs. by apply andb_true_iff in Hs as [? ?]. }
  destruct (persist_loop_ok results w1 (backend_gathered_shape _ _ _ _) Hh')
    as (w2 & lrecs & precs & Hrun2 & Hl & Hp & _ & Hlr & Hpr).
  exists w2, lrecs, precs. unfold bind. rewrite Hrun1, Hrun2.
  split_and!; try done.
  - by rewrite Hl, Ho1.
  - by rewrite Hp, Ho1.
Qed.

Lemma backend_search_fault env q limit providers w :
  let results := backend_gathered env q limit (Backend.prov_list providers) in
  healthy (1 + 2 * length results) w = false ->
  exists w', Backend.search env q limit providers w
             = (Raise ConnectionFailure, w').
Proof.
  intros results Hh. rewrite backend_search_unfold. fold results. simpl.
  set (qdoc := ({[ "query" := VStr q;
                   "providers" := VStrs (Backend.prov_list providers);
                   "limit" := VInt limit ]} : document)).
  unfold bind. destruct (healthy 1 w) eqn:Hh1.
  - destruct (create_document_ok 0 "searchquery" qdoc w Hh1)
      as (w1 & -> & _ & _ & Hf1 & _).
    { unfold id_free, qdoc. by simplify_map_eq. }
    pose proof (healthy_split 1 (2 * length results) w w1 Hf1) as Hs.
    rewrite Hh, Hh1 in Hs. symmetry in Hs.
    destruct (persist_loop_fault results w1 (backend_gathered_shape _ _ _ _) Hs)
      as [w2 ->]. eauto.
  - apply healthy_1_false in Hh1 as [fs Hfs].
    edestruct (create_document_fault "searchquery") as [w1 ->]; [exact Hfs|].
    eauto.
Qed.

End SearchRun.

(** ** [search_products] of the synchronous service *)

Section MainSearch.
Context `{PyRuntime}.
Variable impl : string -> document -> M string.

Lemma try_create_run collection data w :
  exists w', Main.try_create impl collection data w = (Ok tt, w')
             /\ journal w' = (collection, data) :: journal w.
Proof.
  unfold Main.try_create, try_except, mbind, M_bind, bind, Main.create_document.
  destruct (impl collection data w) as [[id|e] w1]; simpl; eauto.
Qed.

Lemma persist_item_run now item w :
  exists w', Main.persist_item impl now item w = (Ok tt, w')
             /\ journal w' = ("pricehistory", Main.pricehistory_doc item now)
                             :: ("listing", Main.listing_doc item now)
                             :: journal w.
Proof.
  unfold Main.persist_item, mbind, M_bind, bind.
  destruct (try_create_run "listing" (Main.listing_doc item now) w) as (w1 & -> & Hj1).
  destruct (try_create_run "pricehistory" (Main.pricehistory_doc item now) w1)
    as (w2 & -> & Hj2).
  exists w2. by rewrite Hj2, Hj1.
Qed.

Lemma persist_items_run now items : forall w,
  exists w', for_each items (Main.persist_item impl now) w = (Ok tt, w')
             /\ journal w'
                = rev (flat_map (fun item =>
                         [("listing", Main.listing_doc item now);
                          ("pricehistory", Main.pricehistory_doc item now)]) items)
                  ++ journal w.
Proof.
  induction items as [|item items IH]; intros w; [by exists w|].
  simpl. unfold bind.
  destruct (persist_item_run now item w) as (w1 & -> & Hj1).
  destruct (IH w1) as (w2 & -> & Hj2).
  exists w2. split; [done|]. rewrite Hj2, Hj1.
  by rewrite <- !app_assoc.
Qed.

Lemma search_products_run q limit providers w :
  let provs := Main.provider_list providers in
  let results := main_gathered q limit provs w in
  let now := mk_datetime (hd 0 (clock w)) true in
  exists w',
    Main.search_products impl q limit providers w
      = (Ok (mk_response q provs results), w')
    /\ journal w' = rev (search_calls q provs now results) ++ journal w.
Proof.
  intros provs results now.
  unfold Main.search_products, mbind, M_bind, bind. fold provs.
  assert (Ha : (if str_in "amazon" provs then Main.fetch_amazon q limit else ret []) w
               = (Ok (if str_in "amazon" provs
                      then returned (Main.fetch_amazon q limit) w else []), w)).
  { destruct (str_in "amazon" provs); [|done].
    unfold returned. by rewrite main_fetch_amazon. }
  assert (Hf : (if str_in "flipkart" provs then Main.fetch_flipkart q limit else ret []) w
               = (Ok (if str_in "flipkart" provs
                      then returned (Main.fetch_flipkart q limit) w else []), w)).
  { destruct (str_in "flipkart" provs); [|done].
    unfold returned. by rewrite main_fetch_flipkart. }
  rewrite Ha, Hf. simpl. fold (main_gathered q limit provs w). fold results.
  destruct (read_clock_run w) as (w1 & Hrc & _ & _ & _ & _ & _ & _ & Hj1).
  unfold now_utc, bind, ret. rewrite Hrc. fold now.
  destruct (persist_items_run now results w1) as (w2 & -> & Hj2).
  edestruct (try_create_run "searchquery") as (w3 & -> & Hj3).
  exists w3. split; [done|].
  rewrite Hj3, Hj2, Hj1. unfold search_calls. rewrite rev_app_distr. done.
Qed.

End MainSearch.

(** ** The search handlers *)

Lemma backend_search_outcome `{PyRuntime} env q limit providers w :
  let results := backend_gathered env q limit (Backend.prov_list providers) in
  exists w',
    Backend.search env q limit providers w
    = (if healthy (1 + 2 * length results) w then Ok results
       else Raise ConnectionFailure, w').
Proof.
  intros results. destruct (healthy _ w) eqn:Hh.
  - destruct (backend_search_ok env q limit providers w Hh) as (w' & _ & _ & Hrun & _).
    eauto.
  - apply (backend_search_fault env q limit providers w Hh).
Qed.

(** C2 (as amended). In [src/main.py] no failure of [create_document] reaches
    the caller of [search_products]: whatever the store does, the handler
    returns the adapters' results in full.  In [src/backend/main.py] the
    handler returns the adapters' results when all its round trips to the
    store succeed, and otherwise fails with the store's exception. *)
Theorem C2_search_persistence_failures `{PyRuntime}
    (impl : string -> document -> M string) (env : gmap string string)
    (q : string) (limit : Z) (providers : option string) (w : World) :
  (exists w',
     Main.search_products impl q limit providers w
     = (Ok (mk_response q (Main.provider_list providers)
              (main_gathered q limit (Main.provider_list providers) w)), w'))
  /\ (let results := backend_gathered env q limit (Backend.prov_list providers) in
      exists w',
        Backend.search env q limit providers w
        = (if healthy (1 + 2 * length results) w then Ok results
           else Raise ConnectionFailure, w')).
Proof.
  split.
  - destruct (search_products_run impl q limit providers w) as (w' & Hrun & _).
    eauto.
  - apply backend_search_outcome.
Qed.

(** C2 fails on [src/backend/main.py]: when the insert of the first listing
    fails, the handler raises and the request is answered with status
    500. *)
Lemma C2_counterexample :
  let w := set_faults [false; true] (fresh_world [10; 20; 30]) in
  fst (@Backend.search example_runtime ∅ "phone" 2 None w) = Raise ConnectionFailure
  /\ http_status (fst (@Backend.search example_runtime ∅ "phone" 2 None w)) = 500.
Proof. vm_compute. split; reflexivity. Qed.

(** C3. When a request selects both providers, the results are those of the
    amazon adapter followed by those of the flipkart adapter, wherever the
    two names stand in the [providers] parameter; a request without the
    parameter selects both.  ([src/backend/main.py] has a result list to
    return when its round trips to the store succeed.) *)
Theorem C3_amazon_before_flipkart `{PyRuntime}
    (impl : string -> document -> M string) (env : gmap string string)
    (q : string) (limit : Z) (providers : option string) (w : World) :
  (str_in "amazon" (Main.provider_list providers) = true ->
   str_in "flipkart" (Main.provider_list providers) = true ->
   exists w',
     Main.search_products impl q limit providers w
     = (Ok (mk_response q (Main.provider_list providers)
              (returned (Main.fetch_amazon q limit) w
               ++ returned (Main.fetch_flipkart q limit) w)), w'))
  /\ (str_in "amazon" (Backend.prov_list providers) = true ->
      str_in "flipkart" (Backend.prov_list providers) = true ->
      let results := Backend.fetch_amazon env q limit
                     ++ Backend.fetch_flipkart env q limit in
      (healthy (1 + 2 * length results) w = true ->
       exists w', Backend.search env q limit providers w = (Ok results, w'))
      /\ (forall r w', Backend.search env q limit providers w = (Ok r, w') ->
                       r = results))
  /\ (str_in "amazon" (Main.provider_list None) = true
      /\ str_in "flipkart" (Main.provider_list None) = true
      /\ str_in "amazon" (Backend.prov_list None) = true
      /\ str_in "flipkart" (Backend.prov_list None) = true).
Proof.
  split_and!; try reflexivity.
  - intros Ha Hf.
    destruct (search_products_run impl q limit providers w) as (w' & Hrun & _).
    exists w'. rewrite Hrun. unfold main_gathered. by rewrite Ha, Hf.
  - intros Ha Hf results.
    assert (Hg : backend_gathered env q limit (Backend.prov_list providers) = results).
    { unfold backend_gathered. by rewrite Ha, Hf. }
    split.
    + intros Hh. rewrite <- Hg in Hh.
      destruct (backend_search_ok env q limit providers w Hh) as (w' & _ & _ & Hrun & _).
      exists w'. by rewrite Hrun, Hg.
    + intros r w' Hrun.
      destruct (healthy (1 + 2 * length (backend_gathered env q limit
                                           (Backend.prov_list providers))) w) eqn:Hh.
      * destruct (backend_search_ok env q limit providers w Hh) as (w1 & _ & _ & Hrun1 & _).
        rewrite Hrun in Hrun1. by injection Hrun1 as -> _.
      * destruct (backend_search_fault env q limit providers w Hh) as (w1 & Hrun1).
        rewrite Hrun in Hrun1. discriminate.
Qed.

(** C3 at [limit=2], [providers=flipkart,amazon], no credentials: the skus
    are AMZ-1, AMZ-2, FK-1, FK-2 in both services. *)
Lemma C3_witness :
  (exists w',
     Main.search_products unavailable_store "phone" 2
       (Some "flipkart,amazon") (fresh_world [10])
     = (Ok (mk_response "phone" ["flipkart"; "amazon"]
              (map (Main.amazon_item "phone") [1; 2]
               ++ map (Main.flipkart_item "phone") [1; 2])), w'))
  /\ (exists w',
        @Backend.search example_runtime ∅ "phone" 2 (Some "flipkart,amazon")
          (fresh_world [10])
        = (Ok (map (Backend.amazon_item "phone") [1; 2]
               ++ map (Backend.flipkart_item "phone") [1; 2]), w')).
Proof.
  split.
  - apply (proj1 (C3_amazon_before_flipkart (H := example_runtime) unavailable_store ∅
                    "phone" 2 (Some "flipkart,amazon") (fresh_world [10])));
      reflexivity.
  - refine (proj1 (proj1 (proj2 (C3_amazon_before_flipkart (H := example_runtime)
                                    unavailable_store ∅ "phone" 2
                                    (Some "flipkart,amazon") (fresh_world [10])))
                         _ _) _);
      reflexivity.
Defined.




Lemma Forall2_map_same {A B} (P : A -> B -> Prop) (f : A -> B) (l : list A) :
  (forall x, P x (f x)) -> Forall2 P l (map f l).
Proof. intros HP. induction l; simpl; constructor; auto. Qed.

Lemma calls_to_search_calls q provs now results :
  calls_to "listing" (search_calls q provs now results)
  = map (fun item => Main.listing_doc item now) results
  /\ calls_to "pricehistory" (search_calls q provs now results)
     = map (fun item => Main.pricehistory_doc item now) results
  /\ calls_to "searchquery" (search_calls q provs now results)
     = [ {[ "query" := VStr q; "providers" := VStrs provs;
            "created_at" := VDate now ]} ].
Proof.
  unfold search_calls, calls_to.
  induction results as [|item results (IH1 & IH2 & IH3)]; [done|].
  simpl. by rewrite IH1, IH2, IH3.
Qed.

Lemma backend_gathered_no_fetched_at env q limit provs :
  Forall (fun r : document => r !! "fetched_at" = None /\ r !! "timestamp" = None)
         (backend_gathered env q limit provs).
Proof.
  unfold backend_gathered, Backend.fetch_amazon, Backend.fetch_flipkart.
  apply Forall_app. split.
  - destruct (str_in "amazon" provs), (negb (Backend.AMAZON_KEYS_PRESENT env));
      try by constructor.
    apply Forall_forall. intros r Hr. apply list_elem_of_In, in_map_iff in Hr as (i & <- & _).
    unfold Backend.amazon_item. split; by simplify_map_eq.
  - destruct (str_in "flipkart" provs), (negb (Backend.FLIPKART_KEYS_PRESENT env));
      try by constructor.
    apply Forall_forall. intros r Hr. apply list_elem_of_In, in_map_iff in Hr as (i & <- & _).
    unfold Backend.flipkart_item. split; by simplify_map_eq.
Qed.

Lemma listing_records_created_only (rs lrecs : list document) :
  Forall (fun r : document => r !! "fetched_at" = None /\ r !! "timestamp" = None) rs ->
  Forall2 listing_record rs lrecs -> Forall created_only lrecs.
Proof.
  intros Hrs Hl. induction Hl as [|r d rs lrecs (id & t & ->) Hl IH]; [constructor|].
  inversion Hrs as [|? ? [Hfa Hts] Hrs']; subst. constructor; [|auto].
  unfold created_only. split_and!.
  - exists t. by simplify_map_eq.
  - by simplify_map_eq.
  - by simplify_map_eq.
Qed.

(** C9 (as amended). In [src/main.py] one clock reading [now] is made per
    search and every document handed to [create_document] carries it: each
    listing as [fetched_at], each price-history document as [timestamp], the
    search-query document as [created_at]; the price-history document of a
    result carries that result's sku, merchant, price and currency.  In
    [src/backend/main.py] the handler reads no clock: the stored
    price-history record of a result carries the result's sku, merchant,
    price and currency, and the stored records have no [fetched_at] or
    [timestamp], only the [created_at] that [create_document] assigns at
    each insert. *)
Theorem C9_search_record_stamps `{PyRuntime}
    (impl : string -> document -> M string) (env : gmap string string)
    (q : string) (limit : Z) (providers : option string) (w : World) :
  (let provs := Main.provider_list providers in
   let results := main_gathered q limit provs w in
   let now := mk_datetime (hd 0 (clock w)) true in
   exists w' calls,
     Main.search_products impl q limit providers w
     = (Ok (mk_response q provs results), w')
     /\ journal w' = rev calls ++ journal w
     /\ Forall2 (listing_call now) results (calls_to "listing" calls)
     /\ Forall2 (price_call now) results (calls_to "pricehistory" calls)
     /\ exists d, calls_to "searchquery" calls = [d]
                  /\ d !! "created_at" = Some (VDate now))
  /\ (let results := backend_gathered env q limit (Backend.prov_list providers) in
      healthy (1 + 2 * length results) w = true ->
      exists w' lrecs precs,
        Backend.search env q limit providers w = (Ok results, w')
        /\ Mongo.coll "listings" w' = Mongo.coll "listings" w ++ lrecs
        /\ Mongo.coll "pricehistory" w' = Mongo.coll "pricehistory" w ++ precs
        /\ Forall2 listing_record results lrecs
        /\ Forall created_only lrecs
        /\ Forall2 price_record results precs).
Proof.
  split.
  - intros provs results now.
    destruct (search_products_run impl q limit providers w) as (w' & Hrun & Hj).
    destruct (calls_to_search_calls q provs now results) as (Hl & Hp & Hs).
    exists w', (search_calls q provs now results). split_and!; try done.
    + rewrite Hl. apply Forall2_map_same. intros item.
      unfold listing_call, Main.listing_doc. split_and!; by simplify_map_eq.
    + rewrite Hp. apply Forall2_map_same. intros item.
      unfold price_call, Main.pricehistory_doc. split_and!; by simplify_map_eq.
    + eexists. split; [exact Hs|]. by simplify_map_eq.
  - intros results Hh.
    destruct (backend_search_ok env q limit providers w Hh)
      as (w' & lrecs & precs & Hrun & Hl & Hp & Hlr & Hpr).
    exists w', lrecs, precs. split_and!; try done.
    eapply listing_records_created_only; [|exact Hlr].
    apply backend_gathered_no_fetched_at.
Qed.

(** C9 fails on [src/backend/main.py]: with a clock that advances, the
    search-query record, the listing and the price-history record of one
    request carry three different times, and neither [fetched_at] nor
    [timestamp] is stored. *)
Lemma C9_counterexample :
  let w' := snd (@Backend.search example_runtime ∅ "phone" 1 (Some "amazon")
                   (fresh_world [10; 20; 30])) in
  map (fun d : document => d !! "created_at") (Mongo.coll "searchquery" w')
    = [Some (VDate (mk_datetime 10 false))]
  /\ map (fun d : document => (d !! "fetched_at", d !! "created_at"))
         (Mongo.coll "listings" w')
     = [(None, Some (VDate (mk_datetime 20 false)))]
  /\ map (fun d : document => (d !! "timestamp", d !! "created_at"))
         (Mongo.coll "pricehistory" w')
     = [(None, Some (VDate (mk_datetime 30 false)))].
Proof. vm_compute. split_and!; reflexivity. Qed.

(** C9 at a concrete request to the asynchronous service. *)
Lemma C9_witness :
  let w := fresh_world [10; 20; 30] in
  let results := backend_gathered ∅ "phone" 1 (Backend.prov_list (Some "amazon")) in
  healthy (1 + 2 * length results) w = true
  /\ exists w' lrecs precs,
       @Backend.search example_runtime ∅ "phone" 1 (Some "amazon") w = (Ok results, w')
       /\ Mongo.coll "listings" w' = Mongo.coll "listings" w ++ lrecs
       /\ Mongo.coll "pricehistory" w' = Mongo.coll "pricehistory" w ++ precs
       /\ Forall2 listing_record results lrecs
       /\ Forall created_only lrecs
       /\ Forall2 price_record results precs.
Proof.
  intros w results. split; [reflexivity|].
  apply (proj2 (C9_search_record_stamps (H := example_runtime) unavailable_store ∅
                  "phone" 1 (Some "amazon") w)).
  reflexivity.
Defined.

(** ** [create_document] *)

(** C8. For every collection and every document, [create_document] inserts
    one record into that collection and none elsewhere (the server being
    reachable and the document's [_id], if it has one, not stored yet); the
    record is [data] with the clock reading as [created_at] and with its
    identifier, and the identifier is returned as a string. *)
Theorem C8_create_document `{PyRuntime} (collection : string) (data : document)
    (w : World) :
  healthy 1 w = true ->
  id_free collection data w = true ->
  exists w',
    Backend.create_document collection data w
    = (Ok (py_str (assigned_id data w)), w')
    /\ Mongo.coll collection w'
       = Mongo.coll collection w ++ [created_record data w]
    /\ (forall c, c <> collection -> Mongo.coll c w' = Mongo.coll c w)
    /\ created_record data w !! "_id" = Some (assigned_id data w)
    /\ created_record data w !! "created_at"
       = Some (VDate (mk_datetime (hd 0 (clock w)) false))
    /\ (forall k, k <> "_id" -> k <> "created_at" ->
                  created_record data w !! k = data !! k).
Proof.
  intros Hh Hfree.
  destruct (create_document_ok 0 collection data w Hh Hfree)
    as (w' & Hrun & Hc & Ho & _).
  exists w'. split_and!; try done.
  - unfold created_record. by rewrite lookup_insert_eq.
  - unfold created_record. by rewrite lookup_insert_ne, lookup_insert_eq.
  - intros k Hk1 Hk2. unfold created_record. by rewrite !lookup_insert_ne.
Qed.

(** C8 for a favorite stored in an empty database. *)
Lemma C8_witness :
  let data : document := {[ "user_id" := VStr "u1"; "sku" := VStr "AMZ-1" ]} in
  let w := fresh_world [1700000000000000] in
  exists w',
    @Backend.create_document example_runtime "favorite" data w
    = (Ok "000000000000000000000000", w')
    /\ Mongo.coll "favorite" w'
       = [ {[ "_id" := VOid 0%N;
              "created_at" := VDate (mk_datetime 1700000000000000 false);
              "user_id" := VStr "u1"; "sku" := VStr "AMZ-1" ]} ].
Proof.
  intros data w.
  destruct (C8_create_document (H := example_runtime) "favorite" data w
              eq_refl eq_refl) as (w' & Hrun & Hc & _).
  exists w'. split; [exact Hrun|exact Hc].
Defined.

(** ** Deleting a favorite *)






(** ** Listing favorites *)

Lemma compare_antisym a b :
  Mongo.compare b a = CompOpp (Mongo.compare a b).
Proof.
  destruct a, b; try reflexivity; unfold Mongo.compare; simpl.
  - apply String.compare_antisym.
  - symmetry. apply Qcompare_antisym.
  - symmetry. apply Qcompare_antisym.
  - symmetry. apply Qcompare_antisym.
  - symmetry. apply Qcompare_antisym.
  - apply Z.compare_antisym.
  - apply N.compare_antisym.
Qed.

Lemma geb_total a b : Mongo.geb a b = false -> Mongo.geb b a = true.
Proof.
  unfold Mongo.geb. rewrite (compare_antisym a b).
  by destruct (Mongo.compare a b).
Qed.

Lemma geb_dates t u :
  Mongo.geb (VDate t) (VDate u) = true <-> micros u <= micros t.
Proof.
  unfold Mongo.geb, Mongo.compare. simpl.
  destruct (Z.compare_spec (micros t) (micros u)); split; intros; try done; lia.
Qed.

Lemma insert_desc_perm key d l : Permutation (Mongo.insert_desc key d l) (d :: l).
Proof.
  induction l as [|x l IH]; simpl; [done|].
  destruct (Mongo.geb _ _); [done|].
  rewrite IH. apply perm_swap.
Qed.

Lemma sort_desc_perm key l : Permutation (Mongo.sort_desc key l) l.
Proof.
  induction l as [|x l IH]; simpl; [done|].
  rewrite insert_desc_perm. by constructor.
Qed.

Lemma insert_desc_hd key d l (R := fun a b =>
    Mongo.geb (Mongo.sort_key key a) (Mongo.sort_key key b) = true) y :
  HdRel R y l -> R y d -> HdRel R y (Mongo.insert_desc key d l).
Proof.
  intros Hl Hd. destruct l as [|x l]; simpl; [by constructor|].
  destruct (Mongo.geb _ _); constructor; [done|].
  by inversion Hl.
Qed.

Lemma insert_desc_sorted key d l (R := fun a b =>
    Mongo.geb (Mongo.sort_key key a) (Mongo.sort_key key b) = true) :
  Sorted R l -> Sorted R (Mongo.insert_desc key d l).
Proof.
  induction 1 as [|x l Hs IH Hhd]; simpl; [by repeat constructor|].
  destruct (Mongo.geb (Mongo.sort_key key d) (Mongo.sort_key key x)) eqn:Hg.
  - constructor; [by constructor|]. by constructor.
  - constructor; [exact IH|].
    apply insert_desc_hd; [done|]. by apply geb_total.
Qed.

Lemma sort_desc_sorted key l :
  Sorted (fun a b => Mongo.geb (Mongo.sort_key key a) (Mongo.sort_key key b) = true)
         (Mongo.sort_desc key l).
Proof.
  induction l as [|x l IH]; simpl; [constructor|].
  by apply insert_desc_sorted.
Qed.

Section Favorites.
Context `{PyRuntime}.

Lemma stringify_id_run (d : document) w :
  is_Some (d !! "_id") ->
  Backend.stringify_id d w = (Ok (with_string_id d), w).
Proof.
  intros [id Hid].
  unfold Backend.stringify_id, with_string_id, mbind, M_bind, bind, getitem.
  by rewrite Hid.
Qed.

Lemma map_m_stringify (docs : list document) w :
  Forall (fun d : document => is_Some (d !! "_id")) docs ->
  map_m Backend.stringify_id docs w = (Ok (map with_string_id docs), w).
Proof.
  induction 1 as [|d docs Hid Hds IH]; [done|].
  cbn [map_m]. unfold bind. by rewrite stringify_id_run, IH.
Qed.

Lemma Forall_find P flt (c : list document) :
  Forall P c -> Forall P (Mongo.find flt c).
Proof.
  unfold Mongo.find. rewrite !Forall_forall. intros Hc d Hd.
  apply Hc. apply list_elem_of_In. apply list_elem_of_In, filter_In in Hd. tauto.
Qed.

Lemma Forall_limit P n (l : list document) :
  Forall P l -> Forall P (Mongo.limit n l).
Proof.
  unfold Mongo.limit. intros Hl. destruct (n =? 0); [done|].
  by apply Forall_take.
Qed.

End Favorites.

(** C7 (as amended). [GET /favorites] of [src/main.py] returns all the
    favorites of the user, newest first, without a cap; that of
    [src/backend/main.py] returns the first 200 favorites of the user in the
    order of the store, without sorting them. *)
Theorem C7_list_favorites `{PyRuntime} (user_id : string) (w : World) :
  healthy 1 w = true ->
  let mine := Mongo.find {[ "user_id" := VStr user_id ]} (Mongo.coll "favorite" w) in
  (db_handle w = true ->
   exists w' docs,
     Main.list_favorites user_id w = (Ok (map Main.serialize_mongo docs), w')
     /\ Permutation docs mine
     /\ Sorted newer_or_equal docs)
  /\ (Forall (fun d : document => is_Some (d !! "_id")) (Mongo.coll "favorite" w) ->
      exists w',
        Backend.list_favorites user_id w
        = (Ok (map with_string_id (firstn 200 mine)), w')
        /\ (length (map with_string_id (firstn 200 mine)) <= 200)%nat).
Proof.
  intros Hh mine.
  destruct (round_trip_ok 0 w Hh) as (w1 & Hrt & (_ & _ & Hd1 & Hco1 & _) & _).
  assert (Hc : Mongo.coll "favorite" w1 = Mongo.coll "favorite" w)
    by (unfold Mongo.coll; by rewrite Hco1).
  split.
  - intros Hdb. exists w1, (Mongo.sort_desc "created_at" mine). split_and!.
    + unfold Main.list_favorites, Main.require_db, Mongo.fetch, mbind, M_bind, bind.
      rewrite Hdb, Hrt, Hc. done.
    + apply sort_desc_perm.
    + apply sort_desc_sorted.
  - intros Hids. exists w1. split.
    + unfold Backend.list_favorites, Backend.get_documents, Mongo.fetch,
        mbind, M_bind, bind.
      rewrite Hrt, Hc. simpl. fold mine.
      apply map_m_stringify. apply Forall_take. by apply Forall_find.
    + rewrite length_map, length_take. lia.
Qed.

(** C7 fails on both services: [src/backend/main.py] returns two favorites
    oldest first, and [src/main.py] returns 201 favorites. *)
Lemma C7_counterexample :
  match fst (@Backend.list_favorites example_runtime "u" (world_with_favorites 2)) with
  | Ok l => map (fun d : document => d !! "created_at") l
            = [Some (VDate (mk_datetime 1 true)); Some (VDate (mk_datetime 2 true))]
  | Raise _ => False
  end
  /\ match fst (@Main.list_favorites example_runtime "u" (world_with_favorites 201)) with
     | Ok l => length l = 201%nat
     | Raise _ => False
     end.
Proof. split; vm_compute; reflexivity. Qed.

(** C7 on a store of three favorites. *)
Lemma C7_witness :
  let w := world_with_favorites 3 in
  let mine := Mongo.find {[ "user_id" := VStr "u" ]} (Mongo.coll "favorite" w) in
  exists w' docs,
    @Main.list_favorites example_runtime "u" w
    = (Ok (map (@Main.serialize_mongo example_runtime) docs), w')
    /\ Permutation docs mine
    /\ Sorted newer_or_equal docs.
Proof.
  intros w mine.
  apply (proj1 (C7_list_favorites (H := example_runtime) "u" w eq_refl)).
  reflexivity.
Defined.

(** ** [serialize_mongo] *)

Lemma serialize_loop_lookup_gen (l : list (string * value)) (acc : document) k :
  NoDup l.*1 ->
  foldr Main.serialize_item acc l !! k
  = match (list_to_map l : document) !! k with
    | Some v => if has_isoformat v then Some (json_value v) else acc !! k
    | None => acc !! k
    end.
Proof.
  induction l as [|[k0 v0] l IH]; intros Hnd; [done|].
  apply NoDup_cons in Hnd as [Hk0 Hnd]. specialize (IH Hnd).
  assert (Hnone : (list_to_map l : document) !! k0 = None)
    by (by apply not_elem_of_list_to_map_1).
  cbn [foldr list_to_map]. unfold Main.serialize_item at 1. cbn [fst snd].
  destruct (decide (k = k0)) as [->|Hne].
  - rewrite lookup_insert_eq. rewrite Hnone in IH.
    destruct v0; simpl; try exact IH. by rewrite lookup_insert_eq.
  - rewrite lookup_insert_ne by done.
    destruct v0; simpl; try exact IH. by rewrite lookup_insert_ne.
Qed.

Lemma serialize_loop_lookup (d : document) k :
  foldr Main.serialize_item d (map_to_list d) !! k = json_value <$> d !! k.
Proof.
  rewrite serialize_loop_lookup_gen by apply NoDup_fst_map_to_list.
  rewrite list_to_map_to_list.
  destruct (d !! k) as [v|] eqn:Hv; simpl; [|done].
  by destruct v.
Qed.

Section Serialize.
Context `{PyRuntime}.

Lemma serialize_mongo_lookup (d : document) k :
  Main.serialize_mongo d !! k
  = if decide (k = "_id") then id_string <$> d !! k else json_value <$> d !! k.
Proof.
  unfold Main.serialize_mongo. case_bool_decide as Hd.
  - subst d. rewrite lookup_empty. by case_decide.
  - rewrite serialize_loop_lookup. case_decide as Hk.
    + subst k. destruct (d !! "_id") as [v|] eqn:Hv.
      * destruct v; rewrite ?Hv, ?lookup_insert_eq; try done.
      * by rewrite Hv.
    + destruct (d !! "_id") as [v|] eqn:Hv; [|done].
      destruct v; rewrite ?lookup_insert_ne by done; done.
Qed.

Lemma json_value_idemp v : json_value (json_value v) = json_value v.
Proof. by destruct v. Qed.

Lemma id_string_idemp v : id_string (id_string v) = id_string v.
Proof. by destruct v. Qed.

End Serialize.

(** C10. [serialize_mongo] is idempotent; it keeps the keys of the document,
    turns the [_id] into its string (a [None] [_id] stays), turns every other
    value that has [isoformat] into its ISO-8601 string and leaves the
    remaining values as they are. *)
Theorem C10_serialize_mongo `{PyRuntime} (d : document) :
  Main.serialize_mongo (Main.serialize_mongo d) = Main.serialize_mongo d
  /\ dom (Main.serialize_mongo d) = dom d
  /\ Main.serialize_mongo d !! "_id" = id_string <$> d !! "_id"
  /\ (forall k v, k <> "_id" -> d !! k = Some v ->
        Main.serialize_mongo d !! k
        = Some (if has_isoformat v then json_value v else v)).
Proof.
  split_and!.
  - apply map_eq. intros k. rewrite !serialize_mongo_lookup.
    case_decide; destruct (d !! k) as [v|]; simpl; try done.
    + by rewrite id_string_idemp.
    + by rewrite json_value_idemp.
  - apply set_eq. intros k. rewrite !elem_of_dom, serialize_mongo_lookup.
    case_decide; by rewrite fmap_is_Some.
  - rewrite serialize_mongo_lookup. by case_decide.
  - intros k v Hk Hv. rewrite serialize_mongo_lookup, Hv.
    case_decide; [done|]. simpl. by destruct v.
Qed.

(** C10 on a stored favorite. *)
Lemma C10_witness :
  let d : document :=
    {[ "_id" := VOid 255%N; "sku" := VStr "AMZ-1";
       "created_at" := VDate (mk_datetime 1700000000000000 true) ]} in
  @Main.serialize_mongo example_runtime d !! "created_at"
  = Some (VStr "2023-11-14T22:13:20+00:00")
  /\ @Main.serialize_mongo example_runtime d !! "sku" = Some (VStr "AMZ-1").
Proof.
  intros d. split.
  - apply (proj2 (proj2 (proj2 (C10_serialize_mongo (H := example_runtime) d)))
             "created_at" (VDate (mk_datetime 1700000000000000 true)));
      [discriminate | reflexivity].
  - apply (proj2 (proj2 (proj2 (C10_serialize_mongo (H := example_runtime) d)))
             "sku" (VStr "AMZ-1")); [discriminate | reflexivity].
Defined.
